(** * Chain-specification translators of cmd/puppeth/genesis.go

    A shallow embedding of the three genesis converters
    [newAlethGenesisSpec], [newParityChainSpec] and
    [newPyEthereumGenesisSpec], together with the account and precompile
    setters they call, followed by the properties proved about them.

    Conventions of the embedding:
    - a Go pointer is an [option]: [None] is the nil pointer;
    - a [*big.Int] is an [option Z], a [uint64] is a [Z] in [0, 2^64);
    - a Go map is a stdpp [gmap]; a map field that may still be nil is an
      [option (gmap _ _)];
    - a call returns [Ok v] (value, nil error), [Err msg] (nil value and
      [errors.New msg]) or [Panic] (a run-time panic, here always the
      dereference of a nil pointer). *)

From Stdlib Require Import ZArith Ascii String HexString.
From Stdlib.Strings Require Import Byte.
From stdpp Require Import base option countable gmap strings fin_maps.

Local Open Scope Z_scope.
Local Open Scope string_scope.

(** ** Outcome of a call *)

Inductive result (A : Type) : Type :=
| Ok (a : A)
| Err (msg : string)
| Panic.

Arguments Ok {A} a.
Arguments Err {A} msg.
Arguments Panic {A}.

#[global] Instance result_ret : MRet result := fun A a => Ok a.

#[global] Instance result_bind : MBind result := fun A B f r =>
  match r with
  | Ok a => f a
  | Err msg => Err msg
  | Panic => Panic
  end.

(** [*p] and [p.field]: dereferencing nil panics. *)
Definition deref {A : Type} (p : option A) : result A :=
  match p with
  | Some a => Ok a
  | None => Panic
  end.

(** The low 64 bits of the absolute value of a big integer. *)
Definition low64 (n : Z) : Z := Z.abs n mod 2 ^ 64.

(** The method [Uint64] of [math/big.Int]: it reads the magnitude of its
    receiver, so a nil receiver panics, and returns its low 64 bits. *)
Definition Uint64 (x : option Z) : result Z :=
  n ← deref x; Ok (low64 n).

(** [math.MaxInt64]. *)
Definition MaxInt64 : Z := 2 ^ 63 - 1.

(** The largest value of a [uint64] field ([math.MaxUint64]). *)
Definition MaxUint64 : Z := 2 ^ 64 - 1.

(** ** Bytes, hashes and addresses *)

#[global] Instance byte_eq_dec : EqDecision byte := Byte.byte_eq_dec.

#[global] Instance byte_countable : Countable byte :=
  inj_countable Byte.to_N Byte.of_N Byte.of_to_N.

(** [common.Bytes], [common.Hash] (32 bytes), [types.BlockNonce] (8 bytes)
    and [common.Address] (20 bytes), most significant byte first. *)
Abbreviation Bytes := (list byte) (only parsing).
Abbreviation Hash := (list byte) (only parsing).
Abbreviation BlockNonce := (list byte) (only parsing).
Abbreviation Address := (list byte) (only parsing).

Definition AddressLength : nat := 20.

(** Modelled from the spec: [common.BytesToAddress] is declared in the
    [common] package, which is not among the sources.  The spec identifies a
    precompile by "a single-byte contract address" inside the 20-byte address
    space (0x01 is 0x00...01): the bytes are right-aligned, cropped from the
    left when longer than an address and padded with zero bytes on the left
    when shorter. *)
Definition BytesToAddress (b : list byte) : Address :=
  let b := drop (length b - AddressLength) b in
  (replicate (AddressLength - length b) x00 ++ b)%list.

(** ** Collaborators outside this file

    Protocol constants and codecs imported from the [params], [ethash],
    [common], [types] and [strings] packages.  The converters only pass their
    values around, so they are kept abstract. *)

Module Ext.

Record Externals := {
  MaximumExtraDataSize : Z;          (* params.MaximumExtraDataSize *)
  MinGasLimit : Z;                   (* params.MinGasLimit *)
  GasLimitBoundDivisor : Z;          (* params.GasLimitBoundDivisor *)
  MaxCodeSize : Z;                   (* params.MaxCodeSize *)
  MinimumDifficulty : option Z;      (* params.MinimumDifficulty, *big.Int *)
  DifficultyBoundDivisor : option Z; (* params.DifficultyBoundDivisor *)
  DurationLimit : option Z;          (* params.DurationLimit *)
  FrontierBlockReward : Z;           (* ethash.FrontierBlockReward *)
  ByzantiumBlockReward : Z;          (* ethash.ByzantiumBlockReward *)
  ConstantinopleBlockReward : Z;     (* ethash.ConstantinopleBlockReward *)
  EncodeBig : Z -> string;           (* common.EncodeBig *)
  EncodeUint64 : Z -> string;        (* common.EncodeUint64 *)
  EncodeNonce : Z -> BlockNonce;     (* types.EncodeNonce *)
  ToLower : string -> string         (* strings.ToLower *)
}.

End Ext.

(** ** The canonical genesis model ([core.Genesis], [params.ChainConfig]) *)

Module Core.

(** Modelled from the spec: [params.ChainConfig] is declared in the [params]
    package, which is not among the sources.  The spec's canonical genesis
    model holds a chain ID, a consensus-engine tag and, per fork, "an optional
    block number (absent = fork disabled)".  These are the fields the
    converters read, all of them pointers; [Ethash] points to the field-less
    ethash engine configuration. *)
Record ChainConfig := {
  ChainID : option Z;
  HomesteadBlock : option Z;
  EIP150Block : option Z;
  EIP155Block : option Z;
  EIP158Block : option Z;
  ByzantiumBlock : option Z;
  ConstantinopleBlock : option Z;
  PetersburgBlock : option Z;
  IstanbulBlock : option Z;
  Ethash : option unit
}.

(** Modelled from the spec: [core.GenesisAccount] is declared in the [core]
    package, which is not among the sources; an allocation holds a "balance:
    arbitrary-precision non-negative integer" (a [*big.Int]) and a "nonce:
    unsigned 64-bit", next to code, storage and an optional key. *)
Record GenesisAccount := {
  Code : Bytes;
  Storage : gmap Hash Hash;
  Balance : option Z;
  Nonce : Z;
  PrivateKey : Bytes
}.

(** [core.GenesisAlloc], a map from address to account. *)
Abbreviation GenesisAlloc := (gmap Address GenesisAccount) (only parsing).

(** Modelled from the spec: [core.Genesis] is declared in the [core] package,
    which is not among the sources; it holds the "genesis block header fields
    and the prefunded-account allocation table".  [Config] is a pointer and
    [GNonce] is the Go field [Nonce]. *)
Record Genesis := {
  Config : option ChainConfig;
  GNonce : Z;
  Timestamp : Z;
  ExtraData : Bytes;
  GasLimit : Z;
  Difficulty : option Z;
  Mixhash : Hash;
  Coinbase : Address;
  Alloc : GenesisAlloc;
  ParentHash : Hash
}.

(** No fork is scheduled at all. *)
Definition noForks (config : ChainConfig) : Prop :=
  HomesteadBlock config = None /\ EIP150Block config = None /\
  EIP155Block config = None /\ EIP158Block config = None /\
  ByzantiumBlock config = None /\ ConstantinopleBlock config = None /\
  PetersburgBlock config = None /\ IstanbulBlock config = None.


End Core.

(** The two error messages of the converters. *)
Definition errUnsupportedEngine : string := "unsupported consensus engine".
Definition errForkDependency : string :=
  "invalid genesis, istanbul fork is enabled while byzantium is not".

(** ** Format A: the Aleth (C++ Ethereum) genesis specification *)

Module Aleth.

Record alethGenesisSpecLinearPricing := {
  Base : Z;
  Word : Z
}.

(** [alethGenesisSpecBuiltin] is the precompiled contract definition. *)
Record alethGenesisSpecBuiltin := {
  Name : string;
  StartingBlock : option Z;
  Linear : option alethGenesisSpecLinearPricing
}.

(** [alethGenesisSpecAccount] is the prefunded genesis account and/or
    precompiled contract definition. *)
Record alethGenesisSpecAccount := {
  Balance : option Z;
  Nonce : Z;
  Precompiled : option alethGenesisSpecBuiltin
}.

(** The [Params] block of [alethGenesisSpec]. *)
Record alethParams := {
  AccountStartNonce : Z;
  MaximumExtraDataSize : Z;
  HomesteadForkBlock : option Z;
  DaoHardforkBlock : Z;
  EIP150ForkBlock : option Z;
  EIP158ForkBlock : option Z;
  ByzantiumForkBlock : option Z;
  ConstantinopleForkBlock : option Z;
  ConstantinopleFixForkBlock : option Z;
  IstanbulForkBlock : option Z;
  MinGasLimit : Z;
  MaxGasLimit : Z;
  TieBreakingGas : bool;
  GasLimitBoundDivisor : Z;
  MinimumDifficulty : option Z;
  DifficultyBoundDivisor : option Z;
  DurationLimit : option Z;
  BlockReward : option Z;
  NetworkID : Z;
  ChainID : Z;
  AllowFutureBlocks : bool
}.

(** The [Genesis] block of [alethGenesisSpec]. *)
Record alethGenesis := {
  GNonce : BlockNonce;
  Difficulty : option Z;
  MixHash : Hash;
  Author : Address;
  Timestamp : Z;
  ParentHash : Hash;
  ExtraData : Bytes;
  GasLimit : Z
}.

Record alethGenesisSpec := {
  SealEngine : string;
  Params : alethParams;
  Genesis : alethGenesis;
  Accounts : option (gmap Address alethGenesisSpecAccount)
}.

(** The zero value [alethGenesisSpecAccount{}]. *)
Definition zeroAccount : alethGenesisSpecAccount :=
  {| Balance := None; Nonce := 0; Precompiled := None |}.

Definition withAccounts (spec : alethGenesisSpec)
    (accounts : gmap Address alethGenesisSpecAccount) : alethGenesisSpec :=
  {| SealEngine := SealEngine spec; Params := Params spec;
     Genesis := Genesis spec; Accounts := Some accounts |}.

(** The accounts map after [if spec.Accounts == nil { make(...) }]. *)
Definition madeAccounts (spec : alethGenesisSpec)
    : gmap Address alethGenesisSpecAccount :=
  match Accounts spec with
  | None => ∅
  | Some accounts => accounts
  end.

Definition setPrecompile (address : byte) (data : option alethGenesisSpecBuiltin)
    (spec : alethGenesisSpec) : alethGenesisSpec :=
  let accounts := madeAccounts spec in
  let addr := BytesToAddress [address] in
  let accounts :=
    match accounts !! addr with
    | None => <[addr := zeroAccount]> accounts
    | Some _ => accounts
    end in
  withAccounts spec
    (alter (fun a => {| Balance := Balance a; Nonce := Nonce a;
                        Precompiled := data |}) addr accounts).

Definition setAccount (address : Address) (account : Core.GenesisAccount)
    (spec : alethGenesisSpec) : alethGenesisSpec :=
  let accounts := madeAccounts spec in
  let a :=
    match accounts !! address with
    | None => zeroAccount
    | Some a => a
    end in
  withAccounts spec
    (<[address := {| Balance := Core.Balance account;
                     Nonce := Core.Nonce account;
                     Precompiled := Precompiled a |}]> accounts).

(** [&alethGenesisSpecBuiltin{...}]. *)
Definition builtin (name : string) (start : option Z)
    (linear : option alethGenesisSpecLinearPricing)
    : option alethGenesisSpecBuiltin :=
  Some {| Name := name; StartingBlock := start; Linear := linear |}.

Definition linear (base word : Z) : option alethGenesisSpecLinearPricing :=
  Some {| Base := base; Word := word |}.

(** The four unconditional precompiles (lines 161-168). *)
Definition basePrecompiles (spec : alethGenesisSpec) : alethGenesisSpec :=
  let spec := setPrecompile x01 (builtin "ecrecover" None (linear 3000 0)) spec in
  let spec := setPrecompile x02 (builtin "sha256" None (linear 60 12)) spec in
  let spec := setPrecompile x03 (builtin "ripemd160" None (linear 600 120)) spec in
  setPrecompile x04 (builtin "identity" None (linear 15 3)) spec.

(** The precompiles set when Byzantium is scheduled (lines 169-180). *)
Definition byzantiumPrecompiles (config : Core.ChainConfig)
    (spec : alethGenesisSpec) : alethGenesisSpec :=
  let spec := setPrecompile x05
    (builtin "modexp" (Core.ByzantiumBlock config) None) spec in
  let spec := setPrecompile x06
    (builtin "alt_bn128_G1_add" (Core.ByzantiumBlock config) (linear 500 0)) spec in
  let spec := setPrecompile x07
    (builtin "alt_bn128_G1_mul" (Core.ByzantiumBlock config) (linear 40000 0)) spec in
  setPrecompile x08
    (builtin "alt_bn128_pairing_product" (Core.ByzantiumBlock config) None) spec.

(** The precompiles set when Istanbul is scheduled (lines 185-196). *)
Definition istanbulPrecompiles (config : Core.ChainConfig)
    (spec : alethGenesisSpec) : alethGenesisSpec :=
  let spec := setPrecompile x06
    (builtin "alt_bn128_G1_add" (Core.ByzantiumBlock config) None) spec in
  let spec := setPrecompile x07
    (builtin "alt_bn128_G1_mul" (Core.ByzantiumBlock config) None) spec in
  setPrecompile x09
    (builtin "blake2_compression" (Core.IstanbulBlock config) None) spec.

(** [newAlethGenesisSpec] converts a go-ethereum genesis block into an
    Aleth-specific chain specification format. *)
Definition newAlethGenesisSpec (ext : Ext.Externals) (network : string)
    (genesis : Core.Genesis) : result alethGenesisSpec :=
  config ← deref (Core.Config genesis);
  match Core.Ethash config with
  | None => Err errUnsupportedEngine
  | Some _ =>
    chainID ← Uint64 (Core.ChainID config);
    let spec :=
      {| SealEngine := "Ethash";
         Params :=
           {| AccountStartNonce := 0;
              TieBreakingGas := false;
              AllowFutureBlocks := false;
              DaoHardforkBlock := 0;
              HomesteadForkBlock :=
                match Core.HomesteadBlock config with
                | Some num => Some num | None => None end;
              EIP150ForkBlock :=
                match Core.EIP150Block config with
                | Some num => Some num | None => None end;
              EIP158ForkBlock :=
                match Core.EIP158Block config with
                | Some num => Some num | None => None end;
              ByzantiumForkBlock :=
                match Core.ByzantiumBlock config with
                | Some num => Some num | None => None end;
              ConstantinopleForkBlock :=
                match Core.ConstantinopleBlock config with
                | Some num => Some num | None => None end;
              ConstantinopleFixForkBlock :=
                match Core.PetersburgBlock config with
                | Some num => Some num | None => None end;
              IstanbulForkBlock :=
                match Core.IstanbulBlock config with
                | Some num => Some num | None => None end;
              NetworkID := chainID;
              ChainID := chainID;
              MaximumExtraDataSize := ext.(Ext.MaximumExtraDataSize);
              MinGasLimit := ext.(Ext.MinGasLimit);
              MaxGasLimit := MaxInt64;
              MinimumDifficulty := ext.(Ext.MinimumDifficulty);
              DifficultyBoundDivisor := ext.(Ext.DifficultyBoundDivisor);
              GasLimitBoundDivisor := ext.(Ext.GasLimitBoundDivisor);
              DurationLimit := ext.(Ext.DurationLimit);
              BlockReward := Some ext.(Ext.FrontierBlockReward) |};
         Genesis :=
           {| GNonce := ext.(Ext.EncodeNonce) (Core.GNonce genesis);
              MixHash := Core.Mixhash genesis;
              Difficulty := Core.Difficulty genesis;
              Author := Core.Coinbase genesis;
              Timestamp := Core.Timestamp genesis;
              ParentHash := Core.ParentHash genesis;
              ExtraData := Core.ExtraData genesis;
              GasLimit := Core.GasLimit genesis |};
         Accounts := None |} in
    let spec := map_fold setAccount spec (Core.Alloc genesis) in
    let spec := basePrecompiles spec in
    let spec :=
      match Core.ByzantiumBlock config with
      | Some _ => byzantiumPrecompiles config spec
      | None => spec
      end in
    match Core.IstanbulBlock config with
    | Some _ =>
      match Core.ByzantiumBlock config with
      | None => Err errForkDependency
      | Some _ => Ok (istanbulPrecompiles config spec)
      end
    | None => Ok spec
    end
  end.

(** *** Views of a document used in the statements below *)

(** The precompile registry of a document: the definition held by every
    account whose [Precompiled] pointer is set. *)
Definition precompiles (spec : alethGenesisSpec)
    : gmap Address alethGenesisSpecBuiltin :=
  omap Precompiled (madeAccounts spec).

(** The account that [setAccount] writes for an allocation at a fresh
    address. *)
Definition toAccount (account : Core.GenesisAccount) : alethGenesisSpecAccount :=
  {| Balance := Core.Balance account; Nonce := Core.Nonce account;
     Precompiled := None |}.

End Aleth.

(** ** Format B: the Parity chain specification *)

Module Parity.

Record parityChainSpecLinearPricing := {
  Base : Z;
  Word : Z
}.

Record parityChainSpecModExpPricing := {
  Divisor : Z
}.

(** [parityChainSpecAltBnConstOperationPricing] defines the price policy for
    bn const operation (used after istanbul). *)
Record parityChainSpecAltBnConstOperationPricing := {
  Price : Z
}.

(** [parityChainSepcAltBnPairingPricing] defines the price policy for bn
    pairing; its Go fields are [Base] and [Pair]. *)
Record parityChainSepcAltBnPairingPricing := {
  PairingBase : Z;
  Pair : Z
}.

(** [parityChainSpecBlakePricing] defines the price policy for blake2 f
    compression. *)
Record parityChainSpecBlakePricing := {
  GasPerRound : Z
}.

(** [parityChainSpecPricing] represents the different pricing models that
    builtin contracts might advertise using. *)
Record parityChainSpecPricing := {
  Linear : option parityChainSpecLinearPricing;
  ModExp : option parityChainSpecModExpPricing;
  AltBnPairing : option parityChainSepcAltBnPairingPricing;
  Blake2F : option parityChainSpecBlakePricing
}.

Record parityChainSpecAlternativePrice := {
  AltBnConstOperationPrice : option parityChainSpecAltBnConstOperationPricing;
  AltBnPairingPrice : option parityChainSepcAltBnPairingPricing
}.

(** [parityChainSpecVersionedPricing] represents a single version price
    policy; [VersionPrice] is its Go field [Price]. *)
Record parityChainSpecVersionedPricing := {
  VersionPrice : option parityChainSpecAlternativePrice;
  Info : string
}.

(** The dynamic values stored in the [Pricing interface{}] field: nothing, a
    [*parityChainSpecPricing], or a
    [map[*common.Big]*parityChainSpecVersionedPricing].  The keys of that map
    are pointers, so two entries never collapse even when they point to equal
    numbers; the entries are listed in the order of the map literal. *)
Inductive pricing :=
| NoPricing
| SinglePricing (p : option parityChainSpecPricing)
| VersionedPricing (m : list (option Z * option parityChainSpecVersionedPricing)).

(** [parityChainSpecBuiltin] is the precompiled contract definition. *)
Record parityChainSpecBuiltin := {
  Name : string;
  Pricing : pricing;
  ActivateAt : option Z
}.

(** [parityChainSpecAccount] is the prefunded genesis account and/or
    precompiled contract definition.  [Balance] is a value, not a pointer. *)
Record parityChainSpecAccount := {
  Balance : Z;
  Nonce : Z;
  Builtin : option parityChainSpecBuiltin
}.

(** [Engine.Ethash.Params].  Both maps are created with [make] before
    anything is written to them. *)
Record ethashParams := {
  MinimumDifficulty : option Z;
  DifficultyBoundDivisor : option Z;
  DurationLimit : option Z;
  BlockReward : gmap string string;
  DifficultyBombDelays : gmap string string;
  HomesteadTransition : Z;
  EIP100bTransition : Z
}.

(** The [Params] block of [parityChainSpec]. *)
Record parityParams := {
  AccountStartNonce : Z;
  MaximumExtraDataSize : Z;
  MinGasLimit : Z;
  GasLimitBoundDivisor : Z;
  NetworkID : Z;
  ChainID : Z;
  MaxCodeSize : Z;
  MaxCodeSizeTransition : Z;
  EIP98Transition : Z;
  EIP150Transition : Z;
  EIP160Transition : Z;
  EIP161abcTransition : Z;
  EIP161dTransition : Z;
  EIP155Transition : Z;
  EIP140Transition : Z;
  EIP211Transition : Z;
  EIP214Transition : Z;
  EIP658Transition : Z;
  EIP145Transition : Z;
  EIP1014Transition : Z;
  EIP1052Transition : Z;
  EIP1283Transition : Z;
  EIP1283DisableTransition : Z;
  EIP1283ReenableTransition : Z;
  EIP1344Transition : Z;
  EIP1884Transition : Z;
  EIP2028Transition : Z
}.

(** The [Genesis] block of [parityChainSpec]; [SealNonce] and [SealMixHash]
    are [Seal.Ethereum.Nonce] and [Seal.Ethereum.MixHash]. *)
Record parityGenesis := {
  SealNonce : BlockNonce;
  SealMixHash : Bytes;
  Difficulty : option Z;
  Author : Address;
  Timestamp : Z;
  ParentHash : Hash;
  ExtraData : Bytes;
  GasLimit : Z
}.

(** [parityChainSpec] is the chain specification format used by Parity;
    [ChainName] is its Go field [Name] and [Engine] is [Engine.Ethash.Params]. *)
Record parityChainSpec := {
  ChainName : string;
  Datadir : string;
  Engine : ethashParams;
  Params : parityParams;
  Genesis : parityGenesis;
  Nodes : list string;
  Accounts : option (gmap Address parityChainSpecAccount)
}.

(** The zero value [parityChainSpecAccount{}]. *)
Definition zeroAccount : parityChainSpecAccount :=
  {| Balance := 0; Nonce := 0; Builtin := None |}.

Definition withAccounts (spec : parityChainSpec)
    (accounts : gmap Address parityChainSpecAccount) : parityChainSpec :=
  {| ChainName := ChainName spec; Datadir := Datadir spec;
     Engine := Engine spec; Params := Params spec; Genesis := Genesis spec;
     Nodes := Nodes spec; Accounts := Some accounts |}.

Definition withEngine (f : ethashParams -> ethashParams)
    (spec : parityChainSpec) : parityChainSpec :=
  {| ChainName := ChainName spec; Datadir := Datadir spec;
     Engine := f (Engine spec); Params := Params spec; Genesis := Genesis spec;
     Nodes := Nodes spec; Accounts := Accounts spec |}.

Definition withParams (f : parityParams -> parityParams)
    (spec : parityChainSpec) : parityChainSpec :=
  {| ChainName := ChainName spec; Datadir := Datadir spec;
     Engine := Engine spec; Params := f (Params spec); Genesis := Genesis spec;
     Nodes := Nodes spec; Accounts := Accounts spec |}.

Definition withGenesis (genesis : parityGenesis)
    (spec : parityChainSpec) : parityChainSpec :=
  {| ChainName := ChainName spec; Datadir := Datadir spec;
     Engine := Engine spec; Params := Params spec; Genesis := genesis;
     Nodes := Nodes spec; Accounts := Accounts spec |}.

(** The accounts map after [if spec.Accounts == nil { make(...) }]. *)
Definition madeAccounts (spec : parityChainSpec)
    : gmap Address parityChainSpecAccount :=
  match Accounts spec with
  | None => ∅
  | Some accounts => accounts
  end.

Definition setPrecompile (address : byte) (data : option parityChainSpecBuiltin)
    (spec : parityChainSpec) : parityChainSpec :=
  let accounts := madeAccounts spec in
  let a := BytesToAddress [address] in
  let accounts :=
    match accounts !! a with
    | None => <[a := zeroAccount]> accounts
    | Some _ => accounts
    end in
  withAccounts spec
    (alter (fun acc => {| Balance := Balance acc; Nonce := Nonce acc;
                          Builtin := data |}) a accounts).

(** The zero values of the two parameter blocks and of the genesis block. *)
Definition zeroEthash : ethashParams :=
  {| MinimumDifficulty := None; DifficultyBoundDivisor := None;
     DurationLimit := None; BlockReward := ∅; DifficultyBombDelays := ∅;
     HomesteadTransition := 0; EIP100bTransition := 0 |}.

Definition zeroParams : parityParams :=
  {| AccountStartNonce := 0; MaximumExtraDataSize := 0; MinGasLimit := 0;
     GasLimitBoundDivisor := 0; NetworkID := 0; ChainID := 0;
     MaxCodeSize := 0; MaxCodeSizeTransition := 0; EIP98Transition := 0;
     EIP150Transition := 0; EIP160Transition := 0; EIP161abcTransition := 0;
     EIP161dTransition := 0; EIP155Transition := 0; EIP140Transition := 0;
     EIP211Transition := 0; EIP214Transition := 0; EIP658Transition := 0;
     EIP145Transition := 0; EIP1014Transition := 0; EIP1052Transition := 0;
     EIP1283Transition := 0; EIP1283DisableTransition := 0;
     EIP1283ReenableTransition := 0; EIP1344Transition := 0;
     EIP1884Transition := 0; EIP2028Transition := 0 |}.

Definition zeroGenesis : parityGenesis :=
  {| SealNonce := replicate 8 x00; SealMixHash := []; Difficulty := None;
     Author := replicate AddressLength x00; Timestamp := 0;
     ParentHash := replicate 32 x00; ExtraData := []; GasLimit := 0 |}.

(** Frontier (lines 379-382). *)
Definition frontierEthash (ext : Ext.Externals) (e : ethashParams) : ethashParams :=
  {| MinimumDifficulty := ext.(Ext.MinimumDifficulty);
     DifficultyBoundDivisor := ext.(Ext.DifficultyBoundDivisor);
     DurationLimit := ext.(Ext.DurationLimit);
     BlockReward :=
       <["0x0" := ext.(Ext.EncodeBig) ext.(Ext.FrontierBlockReward)]>
         (BlockReward e);
     DifficultyBombDelays := DifficultyBombDelays e;
     HomesteadTransition := HomesteadTransition e;
     EIP100bTransition := EIP100bTransition e |}.

(** Homestead (line 385). *)
Definition homesteadEthash (homestead : Z) (e : ethashParams) : ethashParams :=
  {| HomesteadTransition := homestead;
     MinimumDifficulty := MinimumDifficulty e;
     DifficultyBoundDivisor := DifficultyBoundDivisor e;
     DurationLimit := DurationLimit e;
     BlockReward := BlockReward e;
     DifficultyBombDelays := DifficultyBombDelays e;
     EIP100bTransition := EIP100bTransition e |}.

(** Tangerine Whistle (line 389). *)
Definition tangerineWhistleParams (eip150 : Z) (p : parityParams) : parityParams :=
  {| EIP150Transition := eip150;
     AccountStartNonce := AccountStartNonce p;
     MaximumExtraDataSize := MaximumExtraDataSize p;
     MinGasLimit := MinGasLimit p;
     GasLimitBoundDivisor := GasLimitBoundDivisor p;
     NetworkID := NetworkID p;
     ChainID := ChainID p;
     MaxCodeSize := MaxCodeSize p;
     MaxCodeSizeTransition := MaxCodeSizeTransition p;
     EIP98Transition := EIP98Transition p;
     EIP160Transition := EIP160Transition p;
     EIP161abcTransition := EIP161abcTransition p;
     EIP161dTransition := EIP161dTransition p;
     EIP155Transition := EIP155Transition p;
     EIP140Transition := EIP140Transition p;
     EIP211Transition := EIP211Transition p;
     EIP214Transition := EIP214Transition p;
     EIP658Transition := EIP658Transition p;
     EIP145Transition := EIP145Transition p;
     EIP1014Transition := EIP1014Transition p;
     EIP1052Transition := EIP1052Transition p;
     EIP1283Transition := EIP1283Transition p;
     EIP1283DisableTransition := EIP1283DisableTransition p;
     EIP1283ReenableTransition := EIP1283ReenableTransition p;
     EIP1344Transition := EIP1344Transition p;
     EIP1884Transition := EIP1884Transition p;
     EIP2028Transition := EIP2028Transition p |}.

(** Spurious Dragon (lines 393-396). *)
Definition spuriousDragonParams (eip155 eip158 : Z) (p : parityParams) : parityParams :=
  {| EIP155Transition := eip155;
     EIP160Transition := eip155;
     EIP161abcTransition := eip158;
     EIP161dTransition := eip158;
     AccountStartNonce := AccountStartNonce p;
     MaximumExtraDataSize := MaximumExtraDataSize p;
     MinGasLimit := MinGasLimit p;
     GasLimitBoundDivisor := GasLimitBoundDivisor p;
     NetworkID := NetworkID p;
     ChainID := ChainID p;
     MaxCodeSize := MaxCodeSize p;
     MaxCodeSizeTransition := MaxCodeSizeTransition p;
     EIP98Transition := EIP98Transition p;
     EIP150Transition := EIP150Transition p;
     EIP140Transition := EIP140Transition p;
     EIP211Transition := EIP211Transition p;
     EIP214Transition := EIP214Transition p;
     EIP658Transition := EIP658Transition p;
     EIP145Transition := EIP145Transition p;
     EIP1014Transition := EIP1014Transition p;
     EIP1052Transition := EIP1052Transition p;
     EIP1283Transition := EIP1283Transition p;
     EIP1283DisableTransition := EIP1283DisableTransition p;
     EIP1283ReenableTransition := EIP1283ReenableTransition p;
     EIP1344Transition := EIP1344Transition p;
     EIP1884Transition := EIP1884Transition p;
     EIP2028Transition := EIP2028Transition p |}.

(** The engine parameters written by [setByzantium] (lines 561-564). *)
Definition byzantiumEthash (ext : Ext.Externals) (num : Z) (e : ethashParams)
    : ethashParams :=
  {| BlockReward :=
       <[ext.(Ext.EncodeBig) num :=
           ext.(Ext.EncodeBig) ext.(Ext.ByzantiumBlockReward)]> (BlockReward e);
     DifficultyBombDelays :=
       <[ext.(Ext.EncodeBig) num := ext.(Ext.EncodeUint64) 3000000]>
         (DifficultyBombDelays e);
     EIP100bTransition := low64 num;
     MinimumDifficulty := MinimumDifficulty e;
     DifficultyBoundDivisor := DifficultyBoundDivisor e;
     DurationLimit := DurationLimit e;
     HomesteadTransition := HomesteadTransition e |}.

(** The parameters written by [setByzantium] (lines 565-568). *)
Definition byzantiumParams (num : Z) (p : parityParams) : parityParams :=
  {| EIP140Transition := low64 num;
     EIP211Transition := low64 num;
     EIP214Transition := low64 num;
     EIP658Transition := low64 num;
     AccountStartNonce := AccountStartNonce p;
     MaximumExtraDataSize := MaximumExtraDataSize p;
     MinGasLimit := MinGasLimit p;
     GasLimitBoundDivisor := GasLimitBoundDivisor p;
     NetworkID := NetworkID p;
     ChainID := ChainID p;
     MaxCodeSize := MaxCodeSize p;
     MaxCodeSizeTransition := MaxCodeSizeTransition p;
     EIP98Transition := EIP98Transition p;
     EIP150Transition := EIP150Transition p;
     EIP160Transition := EIP160Transition p;
     EIP161abcTransition := EIP161abcTransition p;
     EIP161dTransition := EIP161dTransition p;
     EIP155Transition := EIP155Transition p;
     EIP145Transition := EIP145Transition p;
     EIP1014Transition := EIP1014Transition p;
     EIP1052Transition := EIP1052Transition p;
     EIP1283Transition := EIP1283Transition p;
     EIP1283DisableTransition := EIP1283DisableTransition p;
     EIP1283ReenableTransition := EIP1283ReenableTransition p;
     EIP1344Transition := EIP1344Transition p;
     EIP1884Transition := EIP1884Transition p;
     EIP2028Transition := EIP2028Transition p |}.

(** The engine parameters written by [setConstantinople] (lines 572-573). *)
Definition constantinopleEthash (ext : Ext.Externals) (num : Z)
    (e : ethashParams) : ethashParams :=
  {| BlockReward :=
       <[ext.(Ext.EncodeBig) num :=
           ext.(Ext.EncodeBig) ext.(Ext.ConstantinopleBlockReward)]>
         (BlockReward e);
     DifficultyBombDelays :=
       <[ext.(Ext.EncodeBig) num := ext.(Ext.EncodeUint64) 2000000]>
         (DifficultyBombDelays e);
     MinimumDifficulty := MinimumDifficulty e;
     DifficultyBoundDivisor := DifficultyBoundDivisor e;
     DurationLimit := DurationLimit e;
     HomesteadTransition := HomesteadTransition e;
     EIP100bTransition := EIP100bTransition e |}.

(** The parameters written by [setConstantinople] (lines 575-578). *)
Definition constantinopleParams (num : Z) (p : parityParams) : parityParams :=
  {| EIP145Transition := low64 num;
     EIP1014Transition := low64 num;
     EIP1052Transition := low64 num;
     EIP1283Transition := low64 num;
     AccountStartNonce := AccountStartNonce p;
     MaximumExtraDataSize := MaximumExtraDataSize p;
     MinGasLimit := MinGasLimit p;
     GasLimitBoundDivisor := GasLimitBoundDivisor p;
     NetworkID := NetworkID p;
     ChainID := ChainID p;
     MaxCodeSize := MaxCodeSize p;
     MaxCodeSizeTransition := MaxCodeSizeTransition p;
     EIP98Transition := EIP98Transition p;
     EIP150Transition := EIP150Transition p;
     EIP160Transition := EIP160Transition p;
     EIP161abcTransition := EIP161abcTransition p;
     EIP161dTransition := EIP161dTransition p;
     EIP155Transition := EIP155Transition p;
     EIP140Transition := EIP140Transition p;
     EIP211Transition := EIP211Transition p;
     EIP214Transition := EIP214Transition p;
     EIP658Transition := EIP658Transition p;
     EIP1283DisableTransition := EIP1283DisableTransition p;
     EIP1283ReenableTransition := EIP1283ReenableTransition p;
     EIP1344Transition := EIP1344Transition p;
     EIP1884Transition := EIP1884Transition p;
     EIP2028Transition := EIP2028Transition p |}.

(** The parameter written by [setConstantinopleFix] (line 582). *)
Definition constantinopleFixParams (num : Z) (p : parityParams) : parityParams :=
  {| EIP1283DisableTransition := low64 num;
     AccountStartNonce := AccountStartNonce p;
     MaximumExtraDataSize := MaximumExtraDataSize p;
     MinGasLimit := MinGasLimit p;
     GasLimitBoundDivisor := GasLimitBoundDivisor p;
     NetworkID := NetworkID p;
     ChainID := ChainID p;
     MaxCodeSize := MaxCodeSize p;
     MaxCodeSizeTransition := MaxCodeSizeTransition p;
     EIP98Transition := EIP98Transition p;
     EIP150Transition := EIP150Transition p;
     EIP160Transition := EIP160Transition p;
     EIP161abcTransition := EIP161abcTransition p;
     EIP161dTransition := EIP161dTransition p;
     EIP155Transition := EIP155Transition p;
     EIP140Transition := EIP140Transition p;
     EIP211Transition := EIP211Transition p;
     EIP214Transition := EIP214Transition p;
     EIP658Transition := EIP658Transition p;
     EIP145Transition := EIP145Transition p;
     EIP1014Transition := EIP1014Transition p;
     EIP1052Transition := EIP1052Transition p;
     EIP1283Transition := EIP1283Transition p;
     EIP1283ReenableTransition := EIP1283ReenableTransition p;
     EIP1344Transition := EIP1344Transition p;
     EIP1884Transition := EIP1884Transition p;
     EIP2028Transition := EIP2028Transition p |}.

(** The parameters written by [setIstanbul] (lines 586-589). *)
Definition istanbulParams (num : Z) (p : parityParams) : parityParams :=
  {| EIP1344Transition := low64 num;
     EIP1884Transition := low64 num;
     EIP2028Transition := low64 num;
     EIP1283ReenableTransition := low64 num;
     AccountStartNonce := AccountStartNonce p;
     MaximumExtraDataSize := MaximumExtraDataSize p;
     MinGasLimit := MinGasLimit p;
     GasLimitBoundDivisor := GasLimitBoundDivisor p;
     NetworkID := NetworkID p;
     ChainID := ChainID p;
     MaxCodeSize := MaxCodeSize p;
     MaxCodeSizeTransition := MaxCodeSizeTransition p;
     EIP98Transition := EIP98Transition p;
     EIP150Transition := EIP150Transition p;
     EIP160Transition := EIP160Transition p;
     EIP161abcTransition := EIP161abcTransition p;
     EIP161dTransition := EIP161dTransition p;
     EIP155Transition := EIP155Transition p;
     EIP140Transition := EIP140Transition p;
     EIP211Transition := EIP211Transition p;
     EIP214Transition := EIP214Transition p;
     EIP658Transition := EIP658Transition p;
     EIP145Transition := EIP145Transition p;
     EIP1014Transition := EIP1014Transition p;
     EIP1052Transition := EIP1052Transition p;
     EIP1283Transition := EIP1283Transition p;
     EIP1283DisableTransition := EIP1283DisableTransition p |}.

(** Lines 414-416. *)
Definition limitParams (ext : Ext.Externals) (p : parityParams) : parityParams :=
  {| MaximumExtraDataSize := ext.(Ext.MaximumExtraDataSize);
     MinGasLimit := ext.(Ext.MinGasLimit);
     GasLimitBoundDivisor := ext.(Ext.GasLimitBoundDivisor);
     AccountStartNonce := AccountStartNonce p;
     NetworkID := NetworkID p;
     ChainID := ChainID p;
     MaxCodeSize := MaxCodeSize p;
     MaxCodeSizeTransition := MaxCodeSizeTransition p;
     EIP98Transition := EIP98Transition p;
     EIP150Transition := EIP150Transition p;
     EIP160Transition := EIP160Transition p;
     EIP161abcTransition := EIP161abcTransition p;
     EIP161dTransition := EIP161dTransition p;
     EIP155Transition := EIP155Transition p;
     EIP140Transition := EIP140Transition p;
     EIP211Transition := EIP211Transition p;
     EIP214Transition := EIP214Transition p;
     EIP658Transition := EIP658Transition p;
     EIP145Transition := EIP145Transition p;
     EIP1014Transition := EIP1014Transition p;
     EIP1052Transition := EIP1052Transition p;
     EIP1283Transition := EIP1283Transition p;
     EIP1283DisableTransition := EIP1283DisableTransition p;
     EIP1283ReenableTransition := EIP1283ReenableTransition p;
     EIP1344Transition := EIP1344Transition p;
     EIP1884Transition := EIP1884Transition p;
     EIP2028Transition := EIP2028Transition p |}.

(** Lines 417-424; [EIP98Transition] is disabled with [math.MaxInt64]. *)
Definition chainParams (ext : Ext.Externals) (chainID : Z) (p : parityParams)
    : parityParams :=
  {| NetworkID := chainID;
     ChainID := chainID;
     MaxCodeSize := ext.(Ext.MaxCodeSize);
     MaxCodeSizeTransition := 0;
     EIP98Transition := MaxInt64;
     AccountStartNonce := AccountStartNonce p;
     MaximumExtraDataSize := MaximumExtraDataSize p;
     MinGasLimit := MinGasLimit p;
     GasLimitBoundDivisor := GasLimitBoundDivisor p;
     EIP150Transition := EIP150Transition p;
     EIP160Transition := EIP160Transition p;
     EIP161abcTransition := EIP161abcTransition p;
     EIP161dTransition := EIP161dTransition p;
     EIP155Transition := EIP155Transition p;
     EIP140Transition := EIP140Transition p;
     EIP211Transition := EIP211Transition p;
     EIP214Transition := EIP214Transition p;
     EIP658Transition := EIP658Transition p;
     EIP145Transition := EIP145Transition p;
     EIP1014Transition := EIP1014Transition p;
     EIP1052Transition := EIP1052Transition p;
     EIP1283Transition := EIP1283Transition p;
     EIP1283DisableTransition := EIP1283DisableTransition p;
     EIP1283ReenableTransition := EIP1283ReenableTransition p;
     EIP1344Transition := EIP1344Transition p;
     EIP1884Transition := EIP1884Transition p;
     EIP2028Transition := EIP2028Transition p |}.

Definition setByzantium (ext : Ext.Externals) (num : Z)
    (spec : parityChainSpec) : parityChainSpec :=
  withParams (byzantiumParams num) (withEngine (byzantiumEthash ext num) spec).

Definition setConstantinople (ext : Ext.Externals) (num : Z)
    (spec : parityChainSpec) : parityChainSpec :=
  withParams (constantinopleParams num)
    (withEngine (constantinopleEthash ext num) spec).

Definition setConstantinopleFix (num : Z) (spec : parityChainSpec)
    : parityChainSpec :=
  withParams (constantinopleFixParams num) spec.

Definition setIstanbul (num : Z) (spec : parityChainSpec) : parityChainSpec :=
  withParams (istanbulParams num) spec.

(** [&parityChainSpecBuiltin{...}]. *)
Definition builtin (name : string) (activateAt : option Z) (p : pricing)
    : option parityChainSpecBuiltin :=
  Some {| Name := name; Pricing := p; ActivateAt := activateAt |}.

Definition noPrice : parityChainSpecPricing :=
  {| Linear := None; ModExp := None; AltBnPairing := None; Blake2F := None |}.

(** [&parityChainSpecPricing{Linear: &parityChainSpecLinearPricing{...}}]. *)
Definition linear (base word : Z) : pricing :=
  SinglePricing (Some
    {| Linear := Some {| Base := base; Word := word |};
       ModExp := ModExp noPrice; AltBnPairing := AltBnPairing noPrice;
       Blake2F := Blake2F noPrice |}).

Definition modexp (divisor : Z) : pricing :=
  SinglePricing (Some
    {| Linear := Linear noPrice;
       ModExp := Some {| Divisor := divisor |};
       AltBnPairing := AltBnPairing noPrice; Blake2F := Blake2F noPrice |}).

Definition altBnPairing (base pair : Z) : pricing :=
  SinglePricing (Some
    {| Linear := Linear noPrice; ModExp := ModExp noPrice;
       AltBnPairing := Some {| PairingBase := base; Pair := pair |};
       Blake2F := Blake2F noPrice |}).

Definition blake2F (gasPerRound : Z) : pricing :=
  SinglePricing (Some
    {| Linear := Linear noPrice; ModExp := ModExp noPrice;
       AltBnPairing := AltBnPairing noPrice;
       Blake2F := Some {| GasPerRound := gasPerRound |} |}).

(** One entry of a versioned pricing table, for a constant-price operation
    and for the pairing check. *)
Definition constOperation (price : Z) : option parityChainSpecVersionedPricing :=
  Some {| VersionPrice := Some
            {| AltBnConstOperationPrice := Some {| Price := price |};
               AltBnPairingPrice := None |};
          Info := "" |}.

Definition pairingOperation (base pair : Z)
    : option parityChainSpecVersionedPricing :=
  Some {| VersionPrice := Some
            {| AltBnConstOperationPrice := None;
               AltBnPairingPrice := Some {| PairingBase := base; Pair := pair |} |};
          Info := "" |}.

(** The four unconditional builtins (lines 444-455). *)
Definition basePrecompiles (spec : parityChainSpec) : parityChainSpec :=
  let spec := setPrecompile x01 (builtin "ecrecover" None (linear 3000 0)) spec in
  let spec := setPrecompile x02 (builtin "sha256" None (linear 60 12)) spec in
  let spec := setPrecompile x03 (builtin "ripemd160" None (linear 600 120)) spec in
  setPrecompile x04 (builtin "identity" None (linear 15 3)) spec.

(** The builtins set when Byzantium is scheduled (lines 456-485). *)
Definition byzantiumPrecompiles (config : Core.ChainConfig)
    (spec : parityChainSpec) : parityChainSpec :=
  let spec := setPrecompile x05
    (builtin "modexp" (Core.ByzantiumBlock config) (modexp 20)) spec in
  let spec := setPrecompile x06
    (builtin "alt_bn128_add" (Core.ByzantiumBlock config) (linear 500 0)) spec in
  let spec := setPrecompile x07
    (builtin "alt_bn128_mul" (Core.ByzantiumBlock config) (linear 40000 0)) spec in
  setPrecompile x08
    (builtin "alt_bn128_pairing" (Core.ByzantiumBlock config)
       (altBnPairing 100000 80000)) spec.

(** The builtins set when Istanbul is scheduled (lines 490-544). *)
Definition istanbulPrecompiles (config : Core.ChainConfig)
    (spec : parityChainSpec) : parityChainSpec :=
  let spec := setPrecompile x06
    (builtin "alt_bn128_add" (Core.ByzantiumBlock config)
       (VersionedPricing
          [(Some 0, constOperation 500);
           (Core.IstanbulBlock config, constOperation 150)])) spec in
  let spec := setPrecompile x07
    (builtin "alt_bn128_mul" (Core.ByzantiumBlock config)
       (VersionedPricing
          [(Some 0, constOperation 40000);
           (Core.IstanbulBlock config, constOperation 6000)])) spec in
  let spec := setPrecompile x08
    (builtin "alt_bn128_pairing" (Core.ByzantiumBlock config)
       (VersionedPricing
          [(Some 0, pairingOperation 100000 80000);
           (Core.IstanbulBlock config, pairingOperation 45000 34000)])) spec in
  setPrecompile x09
    (builtin "blake2_f" (Core.IstanbulBlock config) (blake2F 1)) spec.

(** The loop over [genesis.Alloc] (lines 436-443): [*account.Balance]
    dereferences the balance of every allocation. *)
Definition allocAccounts (alloc : Core.GenesisAlloc)
    : result (gmap Address parityChainSpecAccount) :=
  map_fold (fun address account done =>
      accounts ← done;
      bal ← deref (Core.Balance account);
      Ok (<[address := {| Balance := bal; Nonce := Core.Nonce account;
                          Builtin := None |}]> accounts))
    (Ok ∅) alloc.

(** [newParityChainSpec] converts a go-ethereum genesis block into a Parity
    specific chain specification format. *)
Definition newParityChainSpec (ext : Ext.Externals) (network : string)
    (genesis : Core.Genesis) (bootnodes : list string) : result parityChainSpec :=
  config ← deref (Core.Config genesis);
  match Core.Ethash config with
  | None => Err errUnsupportedEngine
  | Some _ =>
    let spec :=
      {| ChainName := network; Nodes := bootnodes;
         Datadir := ext.(Ext.ToLower) network;
         Engine := zeroEthash; Params := zeroParams; Genesis := zeroGenesis;
         Accounts := None |} in
    let spec := withEngine (frontierEthash ext) spec in
    homestead ← Uint64 (Core.HomesteadBlock config);
    let spec := withEngine (homesteadEthash homestead) spec in
    eip150 ← Uint64 (Core.EIP150Block config);
    let spec := withParams (tangerineWhistleParams eip150) spec in
    eip155 ← Uint64 (Core.EIP155Block config);
    eip158 ← Uint64 (Core.EIP158Block config);
    let spec := withParams (spuriousDragonParams eip155 eip158) spec in
    let spec :=
      match Core.ByzantiumBlock config with
      | Some num => setByzantium ext num spec
      | None => spec
      end in
    let spec :=
      match Core.ConstantinopleBlock config with
      | Some num => setConstantinople ext num spec
      | None => spec
      end in
    let spec :=
      match Core.PetersburgBlock config with
      | Some num => setConstantinopleFix num spec
      | None => spec
      end in
    let spec :=
      match Core.IstanbulBlock config with
      | Some num => setIstanbul num spec
      | None => spec
      end in
    let spec := withParams (limitParams ext) spec in
    chainID ← Uint64 (Core.ChainID config);
    let spec := withParams (chainParams ext chainID) spec in
    let spec := withGenesis
      {| SealNonce := ext.(Ext.EncodeNonce) (Core.GNonce genesis);
         SealMixHash := Core.Mixhash genesis;
         Difficulty := Core.Difficulty genesis;
         Author := Core.Coinbase genesis;
         Timestamp := Core.Timestamp genesis;
         ParentHash := Core.ParentHash genesis;
         ExtraData := Core.ExtraData genesis;
         GasLimit := Core.GasLimit genesis |} spec in
    accounts ← allocAccounts (Core.Alloc genesis);
    let spec := withAccounts spec accounts in
    let spec := basePrecompiles spec in
    let spec :=
      match Core.ByzantiumBlock config with
      | Some _ => byzantiumPrecompiles config spec
      | None => spec
      end in
    match Core.IstanbulBlock config with
    | Some _ =>
      match Core.ByzantiumBlock config with
      | None => Err errForkDependency
      | Some _ => Ok (istanbulPrecompiles config spec)
      end
    | None => Ok spec
    end
  end.

(** *** Views of a document used in the statements below *)

(** The builtin registry of a document: the definition held by every account
    whose [Builtin] pointer is set. *)
Definition builtins (spec : parityChainSpec)
    : gmap Address parityChainSpecBuiltin :=
  omap Builtin (madeAccounts spec).

(** The account written by the allocation loop for an allocation whose
    balance pointer is set. *)
Definition toAccount (account : Core.GenesisAccount) : parityChainSpecAccount :=
  {| Balance := default 0 (Core.Balance account);
     Nonce := Core.Nonce account; Builtin := None |}.


End Parity.

(** ** Format C: the Python Ethereum genesis specification *)

Module PyEthereum.

Record pyEthereumGenesisSpec := {
  Nonce : BlockNonce;
  Timestamp : Z;
  ExtraData : Bytes;
  GasLimit : Z;
  Difficulty : option Z;
  Mixhash : Hash;
  Coinbase : Address;
  Alloc : Core.GenesisAlloc;
  ParentHash : Hash
}.

(** [newPyEthereumGenesisSpec] converts a go-ethereum genesis block into a
    pyethereum specific chain specification format. *)
Definition newPyEthereumGenesisSpec (ext : Ext.Externals) (network : string)
    (genesis : Core.Genesis) : result pyEthereumGenesisSpec :=
  config ← deref (Core.Config genesis);
  match Core.Ethash config with
  | None => Err errUnsupportedEngine
  | Some _ =>
    Ok {| Nonce := ext.(Ext.EncodeNonce) (Core.GNonce genesis);
          Timestamp := Core.Timestamp genesis;
          ExtraData := Core.ExtraData genesis;
          GasLimit := Core.GasLimit genesis;
          Difficulty := Core.Difficulty genesis;
          Mixhash := Core.Mixhash genesis;
          Coinbase := Core.Coinbase genesis;
          Alloc := Core.Alloc genesis;
          ParentHash := Core.ParentHash genesis |}
  end.

End PyEthereum.

(** ** Concrete models

    A sample instantiation of the collaborators (the values of upstream
    go-ethereum, hexadecimal codecs, ASCII lower-casing) and a few genesis
    models, used to run the converters. *)

Module Sample.

Definition lowerAscii (c : ascii) : ascii :=
  let n := nat_of_ascii c in
  if ((65 <=? n) && (n <=? 90))%nat then ascii_of_nat (n + 32) else c.

Fixpoint toLower (s : string) : string :=
  match s with
  | EmptyString => EmptyString
  | String c s => String (lowerAscii c) (toLower s)
  end.

(** Eight bytes, most significant first. *)
Definition encodeNonce (n : Z) : BlockNonce :=
  map (fun k => default x00 (Byte.of_N (Z.to_N ((n / 256 ^ k) mod 256))))
    [7; 6; 5; 4; 3; 2; 1; 0].

Definition externals : Ext.Externals :=
  {| Ext.MaximumExtraDataSize := 32;
     Ext.MinGasLimit := 5000;
     Ext.GasLimitBoundDivisor := 1024;
     Ext.MaxCodeSize := 24576;
     Ext.MinimumDifficulty := Some 131072;
     Ext.DifficultyBoundDivisor := Some 2048;
     Ext.DurationLimit := Some 13;
     Ext.FrontierBlockReward := 5 * 10 ^ 18;
     Ext.ByzantiumBlockReward := 3 * 10 ^ 18;
     Ext.ConstantinopleBlockReward := 2 * 10 ^ 18;
     Ext.EncodeBig := HexString.of_Z;
     Ext.EncodeUint64 := HexString.of_Z;
     Ext.EncodeNonce := encodeNonce;
     Ext.ToLower := toLower |}.

(** A genesis block with an all-zero header. *)
Definition genesis (config : Core.ChainConfig) (alloc : Core.GenesisAlloc)
    : Core.Genesis :=
  {| Core.Config := Some config; Core.GNonce := 0; Core.Timestamp := 0;
     Core.ExtraData := []; Core.GasLimit := 0; Core.Difficulty := Some 0;
     Core.Mixhash := replicate 32 x00;
     Core.Coinbase := replicate AddressLength x00;
     Core.Alloc := alloc; Core.ParentHash := replicate 32 x00 |}.

(** An externally owned account holding [balance]. *)
Definition funded (balance : Z) : Core.GenesisAccount :=
  {| Core.Code := []; Core.Storage := ∅; Core.Balance := Some balance;
     Core.Nonce := 0; Core.PrivateKey := [] |}.

(** The address 0x0000000000000000000000000000000000000001. *)
Definition address1 : Address := (replicate 19 x00 ++ [x01])%list.

(** chainID=1234, homesteadBlock=0, byzantiumBlock=10, istanbulBlock=20 and
    one allocation of 100 at [address1]. *)
Definition scenarioConfig : Core.ChainConfig :=
  {| Core.ChainID := Some 1234; Core.HomesteadBlock := Some 0;
     Core.EIP150Block := None; Core.EIP155Block := None;
     Core.EIP158Block := None; Core.ByzantiumBlock := Some 10;
     Core.ConstantinopleBlock := None; Core.PetersburgBlock := None;
     Core.IstanbulBlock := Some 20; Core.Ethash := Some () |}.

Definition scenario : Core.Genesis :=
  genesis scenarioConfig {[ address1 := funded 100 ]}.

(** Every fork scheduled, Byzantium at 10 and Istanbul at 20. *)
Definition allForksConfig : Core.ChainConfig :=
  {| Core.ChainID := Some 1234; Core.HomesteadBlock := Some 0;
     Core.EIP150Block := Some 0; Core.EIP155Block := Some 0;
     Core.EIP158Block := Some 0; Core.ByzantiumBlock := Some 10;
     Core.ConstantinopleBlock := Some 15; Core.PetersburgBlock := Some 15;
     Core.IstanbulBlock := Some 20; Core.Ethash := Some () |}.

Definition allForks : Core.Genesis :=
  genesis allForksConfig {[ address1 := funded 100 ]}.

(** The forks up to Spurious Dragon scheduled at block 0, none after. *)
Definition earlyForksConfig : Core.ChainConfig :=
  {| Core.ChainID := Some 1234; Core.HomesteadBlock := Some 0;
     Core.EIP150Block := Some 0; Core.EIP155Block := Some 0;
     Core.EIP158Block := Some 0; Core.ByzantiumBlock := None;
     Core.ConstantinopleBlock := None; Core.PetersburgBlock := None;
     Core.IstanbulBlock := None; Core.Ethash := Some () |}.

Definition earlyForks : Core.Genesis :=
  genesis earlyForksConfig {[ address1 := funded 100 ]}.

(** No fork scheduled. *)
Definition noForksConfig : Core.ChainConfig :=
  {| Core.ChainID := Some 1234; Core.HomesteadBlock := None;
     Core.EIP150Block := None; Core.EIP155Block := None;
     Core.EIP158Block := None; Core.ByzantiumBlock := None;
     Core.ConstantinopleBlock := None; Core.PetersburgBlock := None;
     Core.IstanbulBlock := None; Core.Ethash := Some () |}.

Definition noForks : Core.Genesis :=
  genesis noForksConfig {[ address1 := funded 100 ]}.





(** A model of another engine (no ethash configuration), with Istanbul
    scheduled and nothing else, not even a chain ID. *)
Definition otherEngineConfig : Core.ChainConfig :=
  {| Core.ChainID := None; Core.HomesteadBlock := None;
     Core.EIP150Block := None; Core.EIP155Block := None;
     Core.EIP158Block := None; Core.ByzantiumBlock := None;
     Core.ConstantinopleBlock := None; Core.PetersburgBlock := None;
     Core.IstanbulBlock := Some 20; Core.Ethash := None |}.

Definition otherEngine : Core.Genesis :=
  genesis otherEngineConfig {[ address1 := funded 100 ]}.


(** The zero value [alethGenesisSpec{}] and a document under construction
    that so far holds one prefunded account, at the address of precompile 1. *)
Definition alethBlank : Aleth.alethGenesisSpec :=
  {| Aleth.SealEngine := "";
     Aleth.Params :=
       {| Aleth.AccountStartNonce := 0; Aleth.MaximumExtraDataSize := 0;
          Aleth.HomesteadForkBlock := None; Aleth.DaoHardforkBlock := 0;
          Aleth.EIP150ForkBlock := None; Aleth.EIP158ForkBlock := None;
          Aleth.ByzantiumForkBlock := None;
          Aleth.ConstantinopleForkBlock := None;
          Aleth.ConstantinopleFixForkBlock := None;
          Aleth.IstanbulForkBlock := None; Aleth.MinGasLimit := 0;
          Aleth.MaxGasLimit := 0; Aleth.TieBreakingGas := false;
          Aleth.GasLimitBoundDivisor := 0; Aleth.MinimumDifficulty := None;
          Aleth.DifficultyBoundDivisor := None; Aleth.DurationLimit := None;
          Aleth.BlockReward := None; Aleth.NetworkID := 0; Aleth.ChainID := 0;
          Aleth.AllowFutureBlocks := false |};
     Aleth.Genesis :=
       {| Aleth.GNonce := replicate 8 x00; Aleth.Difficulty := None;
          Aleth.MixHash := replicate 32 x00;
          Aleth.Author := replicate AddressLength x00; Aleth.Timestamp := 0;
          Aleth.ParentHash := replicate 32 x00; Aleth.ExtraData := [];
          Aleth.GasLimit := 0 |};
     Aleth.Accounts := None |}.

Definition alethPrefunded : Aleth.alethGenesisSpec :=
  Aleth.setAccount address1 (funded 100) alethBlank.

(** The same for Format B. *)
Definition parityBlank : Parity.parityChainSpec :=
  {| Parity.ChainName := ""; Parity.Datadir := "";
     Parity.Engine := Parity.zeroEthash; Parity.Params := Parity.zeroParams;
     Parity.Genesis := Parity.zeroGenesis; Parity.Nodes := [];
     Parity.Accounts := None |}.

Definition parityPrefunded : Parity.parityChainSpec :=
  Parity.withAccounts parityBlank {[ address1 := Parity.toAccount (funded 100) ]}.

End Sample.

(** * Properties *)

(** ** Outcomes *)

(** Runs the binds of a converter once their argument is a constructor. *)
Tactic Notation "run_result" :=
  cbn [mbind result_bind mret result_ret deref Uint64].
Tactic Notation "run_result" "in" hyp(H) :=
  cbn [mbind result_bind mret result_ret deref Uint64] in H.

Lemma Uint64_Some (n : Z) : Uint64 (Some n) = Ok (low64 n).
Proof. reflexivity. Qed.

Lemma Uint64_None : Uint64 None = Panic.
Proof. reflexivity. Qed.

Lemma Uint64_Ok_inv (x : option Z) (v : Z) :
  Uint64 x = Ok v -> exists n, x = Some n /\ v = low64 n.
Proof.
  destruct x as [n|]; cbn; intros H; [|discriminate].
  exists n. split; congruence.
Qed.

Lemma low64_range (n : Z) : 0 <= low64 n <= MaxUint64.
Proof.
  unfold low64, MaxUint64.
  pose proof (Z.mod_pos_bound (Z.abs n) (2 ^ 64)). lia.
Qed.

(** ** Single-byte addresses *)

Lemma BytesToAddress_single (b : byte) :
  BytesToAddress [b] = (replicate 19 x00 ++ [b])%list.
Proof. reflexivity. Qed.

Lemma BytesToAddress_single_inj (b1 b2 : byte) :
  BytesToAddress [b1] = BytesToAddress [b2] -> b1 = b2.
Proof.
  rewrite !BytesToAddress_single. intros H.
  apply app_inv_head in H. congruence.
Qed.

Lemma BytesToAddress_single_ne (b1 b2 : byte) :
  b1 <> b2 -> BytesToAddress [b1] <> BytesToAddress [b2].
Proof. intros Hne Heq. apply Hne, BytesToAddress_single_inj, Heq. Qed.

(** Resolves lookups at a single-byte address in a map built by insertions
    at single-byte addresses. *)
Ltac lookup_single_byte :=
  repeat first
    [ rewrite lookup_insert_eq
    | rewrite lookup_insert_ne
        by (apply BytesToAddress_single_ne; discriminate) ].

(** ** Format A: accounts and precompiles *)

Module AlethFacts.
Import Aleth.

(** [setPrecompile] rewrites exactly one account: the one at the single-byte
    address, created zero-valued when missing, with its [Precompiled] pointer
    replaced. *)
Lemma aleth_setPrecompile_accounts (address : byte)
    (data : option alethGenesisSpecBuiltin) (spec : alethGenesisSpec) :
  let addr := BytesToAddress [address] in
  let old := default zeroAccount (madeAccounts spec !! addr) in
  madeAccounts (setPrecompile address data spec) =
  <[addr := {| Balance := Balance old; Nonce := Nonce old;
               Precompiled := data |}]> (madeAccounts spec).
Proof.
  intros addr old. subst old. unfold setPrecompile.
  cbn [madeAccounts Accounts withAccounts]. fold (madeAccounts spec). fold addr.
  apply map_eq. intros k.
  destruct (madeAccounts spec !! addr) as [a|] eqn:E; cbn [default from_option].
  - rewrite lookup_alter, lookup_insert.
    case_decide; subst; [rewrite E|]; done.
  - rewrite lookup_alter, !lookup_insert.
    case_decide; subst; [rewrite decide_True by done|]; done.
Qed.

Lemma aleth_setPrecompile_Params address data spec :
  Params (setPrecompile address data spec) = Params spec.
Proof. reflexivity. Qed.

Lemma aleth_setPrecompile_Genesis address data spec :
  Genesis (setPrecompile address data spec) = Genesis spec.
Proof. reflexivity. Qed.

Lemma aleth_setPrecompile_SealEngine address data spec :
  SealEngine (setPrecompile address data spec) = SealEngine spec.
Proof. reflexivity. Qed.

Lemma aleth_setPrecompile_Accounts_made address data spec :
  Accounts (setPrecompile address data spec) =
  Some (madeAccounts (setPrecompile address data spec)).
Proof. reflexivity. Qed.

(** On the registry, [setPrecompile] is an insertion. *)
Lemma precompiles_setPrecompile address (d : alethGenesisSpecBuiltin) spec :
  precompiles (setPrecompile address (Some d) spec) =
  <[BytesToAddress [address] := d]> (precompiles spec).
Proof.
  unfold precompiles. rewrite aleth_setPrecompile_accounts.
  cbv zeta. by rewrite (omap_insert_Some _ _ _ _ d).
Qed.

(** A registry entry is the [Precompiled] field of an account. *)
Lemma precompiles_lookup spec (k : Address) (d : alethGenesisSpecBuiltin) :
  precompiles spec !! k = Some d <->
  exists a, madeAccounts spec !! k = Some a /\ Precompiled a = Some d.
Proof.
  unfold precompiles. rewrite lookup_omap.
  destruct (madeAccounts spec !! k) as [a|]; cbn [mbind option_bind].
  - split; [by eauto|]. by intros (a' & [= <-] & H).
  - split; [done|]. by intros (a' & [=] & _).
Qed.


(** An account that exists keeps its balance and nonce through
    [setPrecompile], whatever the address written. *)
Lemma aleth_setPrecompile_holdings address data spec (k : Address) a :
  madeAccounts spec !! k = Some a ->
  exists a', madeAccounts (setPrecompile address data spec) !! k = Some a' /\
             Balance a' = Balance a /\ Nonce a' = Nonce a.
Proof.
  intros Hk. rewrite aleth_setPrecompile_accounts. cbv zeta.
  rewrite lookup_insert. case_decide as Hd.
  - subst k. rewrite Hk. cbn. eauto.
  - eauto.
Qed.

Lemma aleth_setAccount_accounts (address : Address) (account : Core.GenesisAccount)
    (spec : alethGenesisSpec) :
  let old := default zeroAccount (madeAccounts spec !! address) in
  madeAccounts (setAccount address account spec) =
  <[address := {| Balance := Core.Balance account;
                  Nonce := Core.Nonce account;
                  Precompiled := Precompiled old |}]> (madeAccounts spec).
Proof.
  intros old. subst old. unfold setAccount.
  cbn [madeAccounts Accounts withAccounts]. fold (madeAccounts spec).
  by destruct (madeAccounts spec !! address).
Qed.

(** The loop over the allocation table, started on a document without
    accounts, writes one precompile-free account per allocation and touches
    nothing else. *)
Lemma alloc_loop (spec : alethGenesisSpec) (alloc : Core.GenesisAlloc) :
  madeAccounts spec = ∅ ->
  let spec' := map_fold setAccount spec alloc in
  madeAccounts spec' = toAccount <$> alloc /\
  Params spec' = Params spec /\ Genesis spec' = Genesis spec /\
  SealEngine spec' = SealEngine spec.
Proof.
  intros Hempty. cbv zeta.
  apply (map_fold_weak_ind (fun r (m : Core.GenesisAlloc) =>
    madeAccounts r = toAccount <$> m /\
    Params r = Params spec /\ Genesis r = Genesis spec /\
    SealEngine r = SealEngine spec)).
  - by rewrite fmap_empty.
  - intros i x m r Hi (IH & HP & HG & HS). split; [|by auto].
    rewrite aleth_setAccount_accounts. cbv zeta.
    rewrite IH, lookup_fmap, Hi, fmap_insert. done.
Qed.

Lemma precompiles_byzantium config spec :
  precompiles (byzantiumPrecompiles config spec) =
  <[BytesToAddress [x08] :=
      {| Name := "alt_bn128_pairing_product";
         StartingBlock := Core.ByzantiumBlock config; Linear := None |}]>
  (<[BytesToAddress [x07] :=
      {| Name := "alt_bn128_G1_mul";
         StartingBlock := Core.ByzantiumBlock config;
         Linear := Some {| Base := 40000; Word := 0 |} |}]>
  (<[BytesToAddress [x06] :=
      {| Name := "alt_bn128_G1_add";
         StartingBlock := Core.ByzantiumBlock config;
         Linear := Some {| Base := 500; Word := 0 |} |}]>
  (<[BytesToAddress [x05] :=
      {| Name := "modexp";
         StartingBlock := Core.ByzantiumBlock config; Linear := None |}]>
  (precompiles spec)))).
Proof.
  unfold byzantiumPrecompiles, builtin, linear.
  by rewrite !precompiles_setPrecompile.
Qed.

Lemma precompiles_istanbul config spec :
  precompiles (istanbulPrecompiles config spec) =
  <[BytesToAddress [x09] :=
      {| Name := "blake2_compression";
         StartingBlock := Core.IstanbulBlock config; Linear := None |}]>
  (<[BytesToAddress [x07] :=
      {| Name := "alt_bn128_G1_mul";
         StartingBlock := Core.ByzantiumBlock config; Linear := None |}]>
  (<[BytesToAddress [x06] :=
      {| Name := "alt_bn128_G1_add";
         StartingBlock := Core.ByzantiumBlock config; Linear := None |}]>
  (precompiles spec))).
Proof.
  unfold istanbulPrecompiles, builtin.
  by rewrite !precompiles_setPrecompile.
Qed.


(** What an accepted model looks like, and the document it yields: the
    parameter block, the accounts of the allocation table, and on top of them
    the precompiles of the three fork cases. *)
Lemma newAlethGenesisSpec_Ok_inv ext network g doc :
  newAlethGenesisSpec ext network g = Ok doc ->
  exists config c spec,
    Core.Config g = Some config /\ is_Some (Core.Ethash config) /\
    Core.ChainID config = Some c /\
    madeAccounts spec = toAccount <$> Core.Alloc g /\
    Params spec =
      {| AccountStartNonce := 0;
         MaximumExtraDataSize := ext.(Ext.MaximumExtraDataSize);
         HomesteadForkBlock := Core.HomesteadBlock config;
         DaoHardforkBlock := 0;
         EIP150ForkBlock := Core.EIP150Block config;
         EIP158ForkBlock := Core.EIP158Block config;
         ByzantiumForkBlock := Core.ByzantiumBlock config;
         ConstantinopleForkBlock := Core.ConstantinopleBlock config;
         ConstantinopleFixForkBlock := Core.PetersburgBlock config;
         IstanbulForkBlock := Core.IstanbulBlock config;
         MinGasLimit := ext.(Ext.MinGasLimit);
         MaxGasLimit := MaxInt64;
         TieBreakingGas := false;
         GasLimitBoundDivisor := ext.(Ext.GasLimitBoundDivisor);
         MinimumDifficulty := ext.(Ext.MinimumDifficulty);
         DifficultyBoundDivisor := ext.(Ext.DifficultyBoundDivisor);
         DurationLimit := ext.(Ext.DurationLimit);
         BlockReward := Some ext.(Ext.FrontierBlockReward);
         NetworkID := low64 c;
         ChainID := low64 c;
         AllowFutureBlocks := false |} /\
    ((Core.ByzantiumBlock config = None /\ Core.IstanbulBlock config = None /\
      doc = basePrecompiles spec) \/
     (is_Some (Core.ByzantiumBlock config) /\ Core.IstanbulBlock config = None /\
      doc = byzantiumPrecompiles config (basePrecompiles spec)) \/
     (is_Some (Core.ByzantiumBlock config) /\ is_Some (Core.IstanbulBlock config) /\
      doc = istanbulPrecompiles config
              (byzantiumPrecompiles config (basePrecompiles spec)))).
Proof.
  unfold newAlethGenesisSpec. intros H.
  destruct (Core.Config g) as [config|]; [|discriminate].
  cbn [mbind result_bind deref] in H.
  destruct (Core.Ethash config) as [u|] eqn:HE; [|discriminate].
  destruct (Core.ChainID config) as [c|] eqn:HC; [|discriminate].
  cbn [mbind result_bind deref Uint64] in H.
  match type of H with context [map_fold setAccount ?s ?a] =>
    destruct (AlethFacts.alloc_loop s a eq_refl) as (HA & HP & _);
    set (spec := map_fold setAccount s a) in *
  end.
  exists config, c, spec. 
  split; [done|]. split; [by eexists|]. split; [done|]. split; [done|].
  split.
  { rewrite HP. cbn [Params].
    destruct (Core.HomesteadBlock config), (Core.EIP150Block config),
      (Core.EIP158Block config), (Core.ByzantiumBlock config),
      (Core.ConstantinopleBlock config), (Core.PetersburgBlock config),
      (Core.IstanbulBlock config); reflexivity. }
  destruct (Core.IstanbulBlock config) as [i|],
    (Core.ByzantiumBlock config) as [b|]; try discriminate;
    injection H as <-.
  - right. right. by eauto.
  - right. left. by eauto.
  - left. by eauto.
Qed.

(** Follows the account at [k] through a chain of [setPrecompile] calls. *)
Ltac through_setPrecompile k :=
  repeat match goal with
  | H : madeAccounts ?s !! k = Some ?x |- context [setPrecompile ?b ?d ?s] =>
    let a' := fresh "a" in let Hb := fresh "Hb" in let Hn := fresh "Hn" in
    destruct (aleth_setPrecompile_holdings b d s k x H) as (a' & ? & Hb & Hn);
    rewrite <- Hb, <- Hn; clear H
  end;
  eauto.

(** An account that exists keeps its balance and nonce through every group
    of precompiles. *)
Lemma basePrecompiles_holdings spec (k : Address) a :
  madeAccounts spec !! k = Some a ->
  exists a', madeAccounts (basePrecompiles spec) !! k = Some a' /\
             Balance a' = Balance a /\ Nonce a' = Nonce a.
Proof.
  intros H0. unfold basePrecompiles.
  through_setPrecompile k.
Qed.

Lemma byzantiumPrecompiles_holdings config spec (k : Address) a :
  madeAccounts spec !! k = Some a ->
  exists a', madeAccounts (byzantiumPrecompiles config spec) !! k = Some a' /\
             Balance a' = Balance a /\ Nonce a' = Nonce a.
Proof.
  intros H0. unfold byzantiumPrecompiles.
  through_setPrecompile k.
Qed.

Lemma istanbulPrecompiles_holdings config spec (k : Address) a :
  madeAccounts spec !! k = Some a ->
  exists a', madeAccounts (istanbulPrecompiles config spec) !! k = Some a' /\
             Balance a' = Balance a /\ Nonce a' = Nonce a.
Proof.
  intros H0. unfold istanbulPrecompiles.
  through_setPrecompile k.
Qed.

(** The three ways the converter ends. *)
Lemma newAlethGenesisSpec_unsupported ext network g config :
  Core.Config g = Some config -> Core.Ethash config = None ->
  newAlethGenesisSpec ext network g = Err errUnsupportedEngine.
Proof.
  unfold newAlethGenesisSpec. intros HC HE.
  rewrite HC. run_result. by rewrite HE.
Qed.


Lemma newAlethGenesisSpec_accepts ext network g config :
  Core.Config g = Some config -> is_Some (Core.Ethash config) ->
  is_Some (Core.ChainID config) ->
  (is_Some (Core.IstanbulBlock config) -> is_Some (Core.ByzantiumBlock config)) ->
  exists doc, newAlethGenesisSpec ext network g = Ok doc.
Proof.
  unfold newAlethGenesisSpec. intros HC [u HE] [c HI] Hdep.
  rewrite HC. run_result. rewrite HE, HI. run_result.
  destruct (Core.IstanbulBlock config) as [i|]; [|by eauto].
  destruct Hdep as [b ->]; by eauto.
Qed.

Lemma newAlethGenesisSpec_no_chain_id ext network g config :
  Core.Config g = Some config -> is_Some (Core.Ethash config) ->
  Core.ChainID config = None ->
  newAlethGenesisSpec ext network g = Panic.
Proof.
  unfold newAlethGenesisSpec. intros HC [u HE] HI.
  rewrite HC. run_result. by rewrite HE, HI.
Qed.

End AlethFacts.

(** ** Format B: accounts, builtins and schedules *)

Module ParityFacts.
Import Parity.

Lemma parity_setPrecompile_accounts (address : byte)
    (data : option parityChainSpecBuiltin) (spec : parityChainSpec) :
  let addr := BytesToAddress [address] in
  let old := default zeroAccount (madeAccounts spec !! addr) in
  madeAccounts (setPrecompile address data spec) =
  <[addr := {| Balance := Balance old; Nonce := Nonce old;
               Builtin := data |}]> (madeAccounts spec).
Proof.
  intros addr old. subst old. unfold setPrecompile.
  cbn [madeAccounts Accounts withAccounts]. fold (madeAccounts spec). fold addr.
  apply map_eq. intros k.
  destruct (madeAccounts spec !! addr) as [a|] eqn:E; cbn [default from_option].
  - rewrite lookup_alter, lookup_insert.
    case_decide; subst; [rewrite E|]; done.
  - rewrite lookup_alter, !lookup_insert.
    case_decide; subst; [rewrite decide_True by done|]; done.
Qed.

Lemma parity_setPrecompile_Accounts_made address data spec :
  Accounts (setPrecompile address data spec) =
  Some (madeAccounts (setPrecompile address data spec)).
Proof. reflexivity. Qed.

Lemma builtins_setPrecompile address (d : parityChainSpecBuiltin) spec :
  builtins (setPrecompile address (Some d) spec) =
  <[BytesToAddress [address] := d]> (builtins spec).
Proof.
  unfold builtins. rewrite parity_setPrecompile_accounts.
  cbv zeta. by rewrite (omap_insert_Some _ _ _ _ d).
Qed.



Lemma builtins_byzantium config spec :
  builtins (byzantiumPrecompiles config spec) =
  <[BytesToAddress [x08] :=
      {| Name := "alt_bn128_pairing"; Pricing := altBnPairing 100000 80000;
         ActivateAt := Core.ByzantiumBlock config |}]>
  (<[BytesToAddress [x07] :=
      {| Name := "alt_bn128_mul"; Pricing := linear 40000 0;
         ActivateAt := Core.ByzantiumBlock config |}]>
  (<[BytesToAddress [x06] :=
      {| Name := "alt_bn128_add"; Pricing := linear 500 0;
         ActivateAt := Core.ByzantiumBlock config |}]>
  (<[BytesToAddress [x05] :=
      {| Name := "modexp"; Pricing := modexp 20;
         ActivateAt := Core.ByzantiumBlock config |}]>
  (builtins spec)))).
Proof.
  unfold byzantiumPrecompiles, builtin.
  by rewrite !builtins_setPrecompile.
Qed.

Lemma builtins_istanbul config spec :
  builtins (istanbulPrecompiles config spec) =
  <[BytesToAddress [x09] :=
      {| Name := "blake2_f"; Pricing := blake2F 1;
         ActivateAt := Core.IstanbulBlock config |}]>
  (<[BytesToAddress [x08] :=
      {| Name := "alt_bn128_pairing";
         Pricing := VersionedPricing
           [(Some 0, pairingOperation 100000 80000);
            (Core.IstanbulBlock config, pairingOperation 45000 34000)];
         ActivateAt := Core.ByzantiumBlock config |}]>
  (<[BytesToAddress [x07] :=
      {| Name := "alt_bn128_mul";
         Pricing := VersionedPricing
           [(Some 0, constOperation 40000);
            (Core.IstanbulBlock config, constOperation 6000)];
         ActivateAt := Core.ByzantiumBlock config |}]>
  (<[BytesToAddress [x06] :=
      {| Name := "alt_bn128_add";
         Pricing := VersionedPricing
           [(Some 0, constOperation 500);
            (Core.IstanbulBlock config, constOperation 150)];
         ActivateAt := Core.ByzantiumBlock config |}]>
  (builtins spec)))).
Proof.
  unfold istanbulPrecompiles, builtin.
  by rewrite !builtins_setPrecompile.
Qed.

(** The allocation loop succeeds exactly when every balance pointer is set,
    and then writes one builtin-free account per allocation; otherwise it
    panics. *)
Lemma allocAccounts_spec (alloc : Core.GenesisAlloc) :
  match allocAccounts alloc with
  | Ok accounts =>
      (forall k a, alloc !! k = Some a -> is_Some (Core.Balance a)) /\
      accounts = toAccount <$> alloc
  | Err _ => False
  | Panic => exists k a, alloc !! k = Some a /\ Core.Balance a = None
  end.
Proof.
  unfold allocAccounts.
  apply (map_fold_weak_ind (fun r (m : Core.GenesisAlloc) =>
    match r with
    | Ok accounts =>
        (forall k a, m !! k = Some a -> is_Some (Core.Balance a)) /\
        accounts = toAccount <$> m
    | Err _ => False
    | Panic => exists k a, m !! k = Some a /\ Core.Balance a = None
    end)).
  - split; [|by rewrite fmap_empty].
    intros k a. by rewrite lookup_empty.
  - intros i x m r Hi IH. destruct r as [accounts|msg|]; [| done |].
    + destruct IH as (Hall & ->). cbn [mbind result_bind].
      destruct (Core.Balance x) as [bal|] eqn:Hbal; cbn [mbind result_bind deref].
      * split.
        -- intros k a. rewrite lookup_insert. case_decide.
           ++ intros [= <-]. by rewrite Hbal.
           ++ apply Hall.
        -- rewrite fmap_insert. unfold toAccount at 2. by rewrite Hbal.
      * exists i, x. by rewrite lookup_insert_eq.
    + destruct IH as (k & a & Hk & Ha). cbn [mbind result_bind].
      exists k, a. split; [|done].
      rewrite lookup_insert_ne; [done|]. intros ->. congruence.
Qed.


(** What an accepted model looks like, and the document it yields: the
    engine and parameter blocks built fork by fork, the accounts of the
    allocation table, and on top of them the builtins of the three fork
    cases. *)
Lemma newParityChainSpec_Ok_inv ext network g bootnodes doc :
  newParityChainSpec ext network g bootnodes = Ok doc ->
  exists config h e150 e155 e158 c spec,
    Core.Config g = Some config /\ is_Some (Core.Ethash config) /\
    Core.HomesteadBlock config = Some h /\
    Core.EIP150Block config = Some e150 /\
    Core.EIP155Block config = Some e155 /\
    Core.EIP158Block config = Some e158 /\
    Core.ChainID config = Some c /\
    (forall k a, Core.Alloc g !! k = Some a -> is_Some (Core.Balance a)) /\
    madeAccounts spec = toAccount <$> Core.Alloc g /\
    Engine doc =
      (let e := homesteadEthash (low64 h) (frontierEthash ext zeroEthash) in
       let e := match Core.ByzantiumBlock config with
                | Some num => byzantiumEthash ext num e
                | None => e
                end in
       match Core.ConstantinopleBlock config with
       | Some num => constantinopleEthash ext num e
       | None => e
       end) /\
    Params doc =
      (let p := spuriousDragonParams (low64 e155) (low64 e158)
                  (tangerineWhistleParams (low64 e150) zeroParams) in
       let p := match Core.ByzantiumBlock config with
                | Some num => byzantiumParams num p
                | None => p
                end in
       let p := match Core.ConstantinopleBlock config with
                | Some num => constantinopleParams num p
                | None => p
                end in
       let p := match Core.PetersburgBlock config with
                | Some num => constantinopleFixParams num p
                | None => p
                end in
       let p := match Core.IstanbulBlock config with
                | Some num => istanbulParams num p
                | None => p
                end in
       chainParams ext (low64 c) (limitParams ext p)) /\
    ((Core.ByzantiumBlock config = None /\ Core.IstanbulBlock config = None /\
      doc = basePrecompiles spec) \/
     (is_Some (Core.ByzantiumBlock config) /\ Core.IstanbulBlock config = None /\
      doc = byzantiumPrecompiles config (basePrecompiles spec)) \/
     (is_Some (Core.ByzantiumBlock config) /\ is_Some (Core.IstanbulBlock config) /\
      doc = istanbulPrecompiles config
              (byzantiumPrecompiles config (basePrecompiles spec)))).
Proof.
  unfold newParityChainSpec. intros H.
  destruct (Core.Config g) as [config|] eqn:HC; [|discriminate].
  run_result in H.
  destruct (Core.Ethash config) as [u|] eqn:HE; [|discriminate].
  destruct (Core.HomesteadBlock config) as [h|] eqn:Hh; [|discriminate].
  run_result in H.
  destruct (Core.EIP150Block config) as [e150|] eqn:He150; [|discriminate].
  run_result in H.
  destruct (Core.EIP155Block config) as [e155|] eqn:He155; [|discriminate].
  run_result in H.
  destruct (Core.EIP158Block config) as [e158|] eqn:He158; [|discriminate].
  run_result in H.
  destruct (Core.ChainID config) as [c|] eqn:Hc; [|discriminate].
  run_result in H.
  pose proof (allocAccounts_spec (Core.Alloc g)) as HA.
  destruct (allocAccounts (Core.Alloc g)) as [accounts|msg|]; [|done|discriminate].
  destruct HA as (Hall & ->). run_result in H.
  match type of H with context [withAccounts ?s ?a] =>
    set (spec := withAccounts s a) in *
  end.
  exists config, h, e150, e155, e158, c, spec.
  split; [done|]. split; [by eexists|]. do 5 (split; [done|]).
  split; [exact Hall|]. split; [reflexivity|].
  destruct (Core.IstanbulBlock config) as [i|],
    (Core.ByzantiumBlock config) as [b|]; try discriminate;
    injection H as <-;
    (split; [by subst spec; destruct (Core.ConstantinopleBlock config),
                  (Core.PetersburgBlock config)|]);
    (split; [by subst spec; destruct (Core.ConstantinopleBlock config),
                  (Core.PetersburgBlock config)|]).
  - right. right. by eauto.
  - right. left. by eauto.
  - left. by eauto.
Qed.

(** The ways the converter ends. *)
Lemma newParityChainSpec_unsupported ext network g bootnodes config :
  Core.Config g = Some config -> Core.Ethash config = None ->
  newParityChainSpec ext network g bootnodes = Err errUnsupportedEngine.
Proof.
  unfold newParityChainSpec. intros HC HE.
  rewrite HC. run_result. by rewrite HE.
Qed.



Lemma newParityChainSpec_no_homestead ext network g bootnodes config :
  Core.Config g = Some config -> is_Some (Core.Ethash config) ->
  Core.HomesteadBlock config = None ->
  newParityChainSpec ext network g bootnodes = Panic.
Proof.
  unfold newParityChainSpec. intros HC [u HE] Hh.
  rewrite HC. run_result. by rewrite HE, Hh.
Qed.

End ParityFacts.

(** * The specification's claims *)

(** ** Consensus-engine check *)

(** C5: a model whose engine is not ethash makes each of the three
    converters fail with the unsupported-consensus-engine error and return no
    document.  The model is arbitrary in its fork fields: the outcome is the
    same for schedules that would otherwise hit the fork-dependency error or a
    nil dereference, because the engine is checked first. *)
Theorem unsupported_engine_rejected
    (ext : Ext.Externals) (network : string) (bootnodes : list string)
    (g : Core.Genesis) (config : Core.ChainConfig) :
  Core.Config g = Some config ->
  Core.Ethash config = None ->
  Aleth.newAlethGenesisSpec ext network g = Err errUnsupportedEngine /\
  Parity.newParityChainSpec ext network g bootnodes = Err errUnsupportedEngine /\
  PyEthereum.newPyEthereumGenesisSpec ext network g = Err errUnsupportedEngine.
Proof.
  intros HC HE. repeat split.
  - by apply (AlethFacts.newAlethGenesisSpec_unsupported _ _ _ config).
  - by apply (ParityFacts.newParityChainSpec_unsupported _ _ _ _ config).
  - unfold PyEthereum.newPyEthereumGenesisSpec.
    rewrite HC. run_result. by rewrite HE.
Qed.

Lemma unsupported_engine_rejected_witness :
  Core.Config Sample.otherEngine = Some Sample.otherEngineConfig /\
  Core.Ethash Sample.otherEngineConfig = None /\
  Aleth.newAlethGenesisSpec Sample.externals "testnet" Sample.otherEngine
    = Err errUnsupportedEngine /\
  Parity.newParityChainSpec Sample.externals "testnet" Sample.otherEngine []
    = Err errUnsupportedEngine /\
  PyEthereum.newPyEthereumGenesisSpec Sample.externals "testnet"
    Sample.otherEngine = Err errUnsupportedEngine.
Proof.
  split; [reflexivity|]. split; [reflexivity|].
  apply (unsupported_engine_rejected Sample.externals "testnet" []
           Sample.otherEngine Sample.otherEngineConfig); reflexivity.
Defined.

(** ** Format A: the parameter block *)

(** C7: every document returned by the Format A converter has account start
    nonce 0, tie-breaking gas off, future blocks disallowed and the DAO
    hard-fork block 0. *)
Theorem aleth_fixed_defaults
    (ext : Ext.Externals) (network : string) (g : Core.Genesis)
    (doc : Aleth.alethGenesisSpec) :
  Aleth.newAlethGenesisSpec ext network g = Ok doc ->
  Aleth.AccountStartNonce (Aleth.Params doc) = 0 /\
  Aleth.TieBreakingGas (Aleth.Params doc) = false /\
  Aleth.AllowFutureBlocks (Aleth.Params doc) = false /\
  Aleth.DaoHardforkBlock (Aleth.Params doc) = 0.
Proof.
  intros H.
  destruct (AlethFacts.newAlethGenesisSpec_Ok_inv _ _ _ _ H)
    as (config & c & spec & _ & _ & _ & _ & HP & Hdoc).
  assert (Aleth.Params doc = Aleth.Params spec) as ->.
  { destruct Hdoc as [(_ & _ & ->)|[(_ & _ & ->)|(_ & _ & ->)]]; reflexivity. }
  rewrite HP. done.
Qed.

Lemma aleth_fixed_defaults_witness :
  exists doc,
    Aleth.newAlethGenesisSpec Sample.externals "testnet" Sample.scenario = Ok doc /\
    Aleth.AccountStartNonce (Aleth.Params doc) = 0 /\
    Aleth.TieBreakingGas (Aleth.Params doc) = false /\
    Aleth.AllowFutureBlocks (Aleth.Params doc) = false /\
    Aleth.DaoHardforkBlock (Aleth.Params doc) = 0.
Proof.
  eexists. split; [reflexivity|].
  apply (aleth_fixed_defaults Sample.externals "testnet" Sample.scenario).
  reflexivity.
Defined.

(** C8: in every document returned by the Format A converter, each of the
    seven fork-block fields is the model's field itself: absent when the
    model's pointer is nil, and otherwise the very same number. *)
Theorem aleth_fork_blocks_copied
    (ext : Ext.Externals) (network : string) (g : Core.Genesis)
    (config : Core.ChainConfig) (doc : Aleth.alethGenesisSpec) :
  Core.Config g = Some config ->
  Aleth.newAlethGenesisSpec ext network g = Ok doc ->
  Aleth.HomesteadForkBlock (Aleth.Params doc) = Core.HomesteadBlock config /\
  Aleth.EIP150ForkBlock (Aleth.Params doc) = Core.EIP150Block config /\
  Aleth.EIP158ForkBlock (Aleth.Params doc) = Core.EIP158Block config /\
  Aleth.ByzantiumForkBlock (Aleth.Params doc) = Core.ByzantiumBlock config /\
  Aleth.ConstantinopleForkBlock (Aleth.Params doc) =
    Core.ConstantinopleBlock config /\
  Aleth.ConstantinopleFixForkBlock (Aleth.Params doc) =
    Core.PetersburgBlock config /\
  Aleth.IstanbulForkBlock (Aleth.Params doc) = Core.IstanbulBlock config.
Proof.
  intros HC H.
  destruct (AlethFacts.newAlethGenesisSpec_Ok_inv _ _ _ _ H)
    as (config' & c & spec & HC' & _ & _ & _ & HP & Hdoc).
  assert (config' = config) as -> by congruence.
  assert (Aleth.Params doc = Aleth.Params spec) as ->.
  { destruct Hdoc as [(_ & _ & ->)|[(_ & _ & ->)|(_ & _ & ->)]]; reflexivity. }
  rewrite HP. done.
Qed.

Lemma aleth_fork_blocks_copied_witness :
  exists doc,
    Aleth.newAlethGenesisSpec Sample.externals "testnet" Sample.scenario = Ok doc /\
    Aleth.HomesteadForkBlock (Aleth.Params doc) = Some 0 /\
    Aleth.EIP150ForkBlock (Aleth.Params doc) = None /\
    Aleth.EIP158ForkBlock (Aleth.Params doc) = None /\
    Aleth.ByzantiumForkBlock (Aleth.Params doc) = Some 10 /\
    Aleth.ConstantinopleForkBlock (Aleth.Params doc) = None /\
    Aleth.ConstantinopleFixForkBlock (Aleth.Params doc) = None /\
    Aleth.IstanbulForkBlock (Aleth.Params doc) = Some 20.
Proof.
  eexists. split; [reflexivity|].
  apply (aleth_fork_blocks_copied Sample.externals "testnet" Sample.scenario
           Sample.scenarioConfig); reflexivity.
Defined.

(** ** The precompile setters *)

(** C10: when the single-byte address is already an account of the document,
    [setPrecompile] (of either format) rewrites that one entry so that only
    its precompiled/builtin definition changes: balance and nonce are kept,
    and every other account is left as it was. *)
Theorem setPrecompile_frame (address : byte) :
  (forall (spec : Aleth.alethGenesisSpec)
          (accounts : gmap Address Aleth.alethGenesisSpecAccount)
          (a : Aleth.alethGenesisSpecAccount)
          (data : option Aleth.alethGenesisSpecBuiltin),
     Aleth.Accounts spec = Some accounts ->
     accounts !! BytesToAddress [address] = Some a ->
     exists a',
       Aleth.Accounts (Aleth.setPrecompile address data spec) =
         Some (<[BytesToAddress [address] := a']> accounts) /\
       Aleth.Balance a' = Aleth.Balance a /\
       Aleth.Nonce a' = Aleth.Nonce a /\
       Aleth.Precompiled a' = data) /\
  (forall (spec : Parity.parityChainSpec)
          (accounts : gmap Address Parity.parityChainSpecAccount)
          (a : Parity.parityChainSpecAccount)
          (data : option Parity.parityChainSpecBuiltin),
     Parity.Accounts spec = Some accounts ->
     accounts !! BytesToAddress [address] = Some a ->
     exists a',
       Parity.Accounts (Parity.setPrecompile address data spec) =
         Some (<[BytesToAddress [address] := a']> accounts) /\
       Parity.Balance a' = Parity.Balance a /\
       Parity.Nonce a' = Parity.Nonce a /\
       Parity.Builtin a' = data).
Proof.
  split.
  - intros spec accounts a data HA Ha.
    exists {| Aleth.Balance := Aleth.Balance a; Aleth.Nonce := Aleth.Nonce a;
              Aleth.Precompiled := data |}.
    split; [|done].
    rewrite AlethFacts.aleth_setPrecompile_Accounts_made.
    rewrite AlethFacts.aleth_setPrecompile_accounts. cbv zeta.
    unfold Aleth.madeAccounts. rewrite HA, Ha. reflexivity.
  - intros spec accounts b data HB Hb.
    exists {| Parity.Balance := Parity.Balance b; Parity.Nonce := Parity.Nonce b;
              Parity.Builtin := data |}.
    split; [|done].
    rewrite ParityFacts.parity_setPrecompile_Accounts_made.
    rewrite ParityFacts.parity_setPrecompile_accounts. cbv zeta.
    unfold Parity.madeAccounts. rewrite HB, Hb. reflexivity.
Qed.

Lemma setPrecompile_frame_witness :
  let ecrecoverA := Aleth.builtin "ecrecover" None (Aleth.linear 3000 0) in
  let ecrecoverB := Parity.builtin "ecrecover" None (Parity.linear 3000 0) in
  let accountsA := {[ Sample.address1 := Aleth.toAccount (Sample.funded 100) ]} in
  let accountsB := {[ Sample.address1 := Parity.toAccount (Sample.funded 100) ]} in
  Aleth.Accounts Sample.alethPrefunded = Some accountsA /\
  accountsA !! BytesToAddress [x01] = Some (Aleth.toAccount (Sample.funded 100)) /\
  Parity.Accounts Sample.parityPrefunded = Some accountsB /\
  accountsB !! BytesToAddress [x01] = Some (Parity.toAccount (Sample.funded 100)) /\
  (exists a',
     Aleth.Accounts (Aleth.setPrecompile x01 ecrecoverA Sample.alethPrefunded) =
       Some (<[BytesToAddress [x01] := a']> accountsA) /\
     Aleth.Balance a' = Some 100 /\ Aleth.Nonce a' = 0 /\
     Aleth.Precompiled a' = ecrecoverA) /\
  (exists b',
     Parity.Accounts (Parity.setPrecompile x01 ecrecoverB Sample.parityPrefunded) =
       Some (<[BytesToAddress [x01] := b']> accountsB) /\
     Parity.Balance b' = 100 /\ Parity.Nonce b' = 0 /\
     Parity.Builtin b' = ecrecoverB).
Proof.
  intros ecrecoverA ecrecoverB accountsA accountsB.
  assert (Aleth.Accounts Sample.alethPrefunded = Some accountsA) as HA
    by reflexivity.
  assert (accountsA !! BytesToAddress [x01] =
          Some (Aleth.toAccount (Sample.funded 100))) as Ha by reflexivity.
  assert (Parity.Accounts Sample.parityPrefunded = Some accountsB) as HB
    by reflexivity.
  assert (accountsB !! BytesToAddress [x01] =
          Some (Parity.toAccount (Sample.funded 100))) as Hb by reflexivity.
  do 4 (split; [assumption|]).
  destruct (setPrecompile_frame x01) as (FA & FB).
  split.
  - exact (FA _ _ _ ecrecoverA HA Ha).
  - exact (FB _ _ _ ecrecoverB HB Hb).
Defined.

(** ** The concrete scenario *)

(** C6: for a model with the ethash engine, chainID=1234, homesteadBlock=0,
    byzantiumBlock=10, istanbulBlock=20 and the single allocation of balance
    100 at 0x0000000000000000000000000000000000000001, the Format A converter
    returns a document in which that account has balance 100, the precompile
    at 0x05 is "modexp" starting at block 10 and the precompile at 0x09 is
    "blake2_compression" starting at block 20.  The fields the scenario does
    not mention are arbitrary. *)
Theorem aleth_scenario
    (ext : Ext.Externals) (network : string) (g : Core.Genesis)
    (config : Core.ChainConfig) (account : Core.GenesisAccount) :
  Core.Config g = Some config ->
  is_Some (Core.Ethash config) ->
  Core.ChainID config = Some 1234 ->
  Core.HomesteadBlock config = Some 0 ->
  Core.ByzantiumBlock config = Some 10 ->
  Core.IstanbulBlock config = Some 20 ->
  Core.Alloc g = {[ Sample.address1 := account ]} ->
  Core.Balance account = Some 100 ->
  exists doc accounts a1 a5 a9 p5 p9,
    Aleth.newAlethGenesisSpec ext network g = Ok doc /\
    Aleth.Accounts doc = Some accounts /\
    accounts !! Sample.address1 = Some a1 /\
    Aleth.Balance a1 = Some 100 /\
    accounts !! BytesToAddress [x05] = Some a5 /\
    Aleth.Precompiled a5 = Some p5 /\
    Aleth.Name p5 = "modexp" /\ Aleth.StartingBlock p5 = Some 10 /\
    accounts !! BytesToAddress [x09] = Some a9 /\
    Aleth.Precompiled a9 = Some p9 /\
    Aleth.Name p9 = "blake2_compression" /\ Aleth.StartingBlock p9 = Some 20.
Proof.
  intros HC HE HI Hh Hb Hi Halloc Hbal.
  destruct (AlethFacts.newAlethGenesisSpec_accepts ext network g config)
    as [doc Hdoc]; [done | done | by rewrite HI | by rewrite Hb |].
  destruct (AlethFacts.newAlethGenesisSpec_Ok_inv _ _ _ _ Hdoc)
    as (config' & c & spec & HC' & _ & _ & Hacc & _ & Hcase).
  assert (config' = config) as -> by congruence.
  destruct Hcase as [(Hb' & _)|[(_ & Hi' & _)|(_ & _ & ->)]];
    [congruence | congruence |].
  (* the prefunded account *)
  assert (Aleth.madeAccounts spec !! Sample.address1 =
          Some (Aleth.toAccount account)) as H1.
  { rewrite Hacc, Halloc, lookup_fmap. by rewrite lookup_singleton_eq. }
  destruct (AlethFacts.basePrecompiles_holdings _ _ _ H1) as (x & Hx & Hxb & _).
  destruct (AlethFacts.byzantiumPrecompiles_holdings config _ _ _ Hx)
    as (y & Hy & Hyb & _).
  destruct (AlethFacts.istanbulPrecompiles_holdings config _ _ _ Hy)
    as (a1 & Ha1 & Ha1b & _).
  (* the two precompiles *)
  remember (Aleth.istanbulPrecompiles config
              (Aleth.byzantiumPrecompiles config (Aleth.basePrecompiles spec)))
    as doc eqn:Edoc.
  assert (Aleth.Accounts doc = Some (Aleth.madeAccounts doc)) as Hmade.
  { subst doc. unfold Aleth.istanbulPrecompiles.
    apply AlethFacts.aleth_setPrecompile_Accounts_made. }
  assert (Aleth.precompiles doc !! BytesToAddress [x05] =
          Some {| Aleth.Name := "modexp"; Aleth.StartingBlock := Some 10;
                  Aleth.Linear := None |}) as H5.
  { subst doc.
    rewrite AlethFacts.precompiles_istanbul, AlethFacts.precompiles_byzantium.
    lookup_single_byte. by rewrite Hb. }
  assert (Aleth.precompiles doc !! BytesToAddress [x09] =
          Some {| Aleth.Name := "blake2_compression";
                  Aleth.StartingBlock := Some 20; Aleth.Linear := None |}) as H9.
  { subst doc. rewrite AlethFacts.precompiles_istanbul.
    lookup_single_byte. by rewrite Hi. }
  clear Edoc.
  apply AlethFacts.precompiles_lookup in H5 as (a5 & E5 & H5).
  apply AlethFacts.precompiles_lookup in H9 as (a9 & E9 & H9).
  exists doc, (Aleth.madeAccounts doc), a1, a5, a9. do 2 eexists.
  split; [exact Hdoc|]. split; [exact Hmade|]. split; [exact Ha1|].
  split; [by rewrite Ha1b, Hyb, Hxb|]. split; [exact E5|]. split; [exact H5|].
  split; [reflexivity|]. split; [reflexivity|]. split; [exact E9|].
  split; [exact H9|]. split; reflexivity.
Qed.

Lemma aleth_scenario_witness :
  exists doc accounts a1 a5 a9 p5 p9,
    Aleth.newAlethGenesisSpec Sample.externals "testnet" Sample.scenario = Ok doc /\
    Aleth.Accounts doc = Some accounts /\
    accounts !! Sample.address1 = Some a1 /\
    Aleth.Balance a1 = Some 100 /\
    accounts !! BytesToAddress [x05] = Some a5 /\
    Aleth.Precompiled a5 = Some p5 /\
    Aleth.Name p5 = "modexp" /\ Aleth.StartingBlock p5 = Some 10 /\
    accounts !! BytesToAddress [x09] = Some a9 /\
    Aleth.Precompiled a9 = Some p9 /\
    Aleth.Name p9 = "blake2_compression" /\ Aleth.StartingBlock p9 = Some 20.
Proof.
  apply (aleth_scenario Sample.externals "testnet" Sample.scenario
           Sample.scenarioConfig (Sample.funded 100));
    first [reflexivity | by eexists].
Defined.

(** ** Precompiles and the fork schedule *)

(** C3: when both the Byzantium and the Istanbul block are set, the
    addresses written in both phases hold, in the returned document, the
    definition of the Istanbul phase: 0x06 and 0x07 in Format A (no linear
    price any more), 0x06, 0x07 and 0x08 in Format B (a versioned price
    table).  In each case this differs from what the Byzantium phase writes
    at that address. *)
Theorem istanbul_definition_wins
    (ext : Ext.Externals) (network : string) (bootnodes : list string)
    (g : Core.Genesis) (config : Core.ChainConfig) (b i : Z) :
  Core.Config g = Some config ->
  is_Some (Core.Ethash config) ->
  Core.ByzantiumBlock config = Some b ->
  Core.IstanbulBlock config = Some i ->
  (forall doc, Aleth.newAlethGenesisSpec ext network g = Ok doc ->
     Aleth.precompiles doc !! BytesToAddress [x06] =
       Some {| Aleth.Name := "alt_bn128_G1_add";
               Aleth.StartingBlock := Some b; Aleth.Linear := None |} /\
     Aleth.precompiles doc !! BytesToAddress [x07] =
       Some {| Aleth.Name := "alt_bn128_G1_mul";
               Aleth.StartingBlock := Some b; Aleth.Linear := None |} /\
     forall spec address, address = x06 \/ address = x07 ->
       Aleth.precompiles doc !! BytesToAddress [address] <>
       Aleth.precompiles (Aleth.byzantiumPrecompiles config spec)
         !! BytesToAddress [address]) /\
  (forall doc, Parity.newParityChainSpec ext network g bootnodes = Ok doc ->
     Parity.builtins doc !! BytesToAddress [x06] =
       Some {| Parity.Name := "alt_bn128_add";
               Parity.Pricing := Parity.VersionedPricing
                 [(Some 0, Parity.constOperation 500);
                  (Some i, Parity.constOperation 150)];
               Parity.ActivateAt := Some b |} /\
     Parity.builtins doc !! BytesToAddress [x07] =
       Some {| Parity.Name := "alt_bn128_mul";
               Parity.Pricing := Parity.VersionedPricing
                 [(Some 0, Parity.constOperation 40000);
                  (Some i, Parity.constOperation 6000)];
               Parity.ActivateAt := Some b |} /\
     Parity.builtins doc !! BytesToAddress [x08] =
       Some {| Parity.Name := "alt_bn128_pairing";
               Parity.Pricing := Parity.VersionedPricing
                 [(Some 0, Parity.pairingOperation 100000 80000);
                  (Some i, Parity.pairingOperation 45000 34000)];
               Parity.ActivateAt := Some b |} /\
     forall spec address, address = x06 \/ address = x07 \/ address = x08 ->
       Parity.builtins doc !! BytesToAddress [address] <>
       Parity.builtins (Parity.byzantiumPrecompiles config spec)
         !! BytesToAddress [address]).
Proof.
  intros HC HE Hb Hi. split.
  - intros doc Hdoc.
    destruct (AlethFacts.newAlethGenesisSpec_Ok_inv _ _ _ _ Hdoc)
      as (config' & c & spec & HC' & _ & _ & _ & _ & Hcase).
    assert (config' = config) as -> by congruence.
    destruct Hcase as [(Hb' & _)|[(_ & Hi' & _)|(_ & _ & ->)]];
      [congruence | congruence |].
    rewrite AlethFacts.precompiles_istanbul, Hb, Hi.
    split; [by lookup_single_byte|]. split; [by lookup_single_byte|].
    intros spec' address [-> | ->];
      rewrite (AlethFacts.precompiles_byzantium config spec'), Hb;
      lookup_single_byte; discriminate.
  - intros doc Hdoc.
    destruct (ParityFacts.newParityChainSpec_Ok_inv _ _ _ _ _ Hdoc)
      as (config' & h & e150 & e155 & e158 & c & spec & HC' & _ & _ & _ & _ &
          _ & _ & _ & _ & _ & _ & Hcase).
    assert (config' = config) as -> by congruence.
    destruct Hcase as [(Hb' & _)|[(_ & Hi' & _)|(_ & _ & ->)]];
      [congruence | congruence |].
    rewrite ParityFacts.builtins_istanbul, Hb, Hi.
    split; [by lookup_single_byte|]. split; [by lookup_single_byte|].
    split; [by lookup_single_byte|].
    intros spec' address [-> | [-> | ->]];
      rewrite (ParityFacts.builtins_byzantium config spec'), Hb;
      lookup_single_byte; discriminate.
Qed.

Lemma istanbul_definition_wins_witness :
  exists docA docB,
    Aleth.newAlethGenesisSpec Sample.externals "testnet" Sample.allForks
      = Ok docA /\
    Parity.newParityChainSpec Sample.externals "testnet" Sample.allForks []
      = Ok docB /\
    Aleth.precompiles docA !! BytesToAddress [x06] =
      Some {| Aleth.Name := "alt_bn128_G1_add";
              Aleth.StartingBlock := Some 10; Aleth.Linear := None |} /\
    Aleth.precompiles docA !! BytesToAddress [x07] =
      Some {| Aleth.Name := "alt_bn128_G1_mul";
              Aleth.StartingBlock := Some 10; Aleth.Linear := None |} /\
    Parity.builtins docB !! BytesToAddress [x06] =
      Some {| Parity.Name := "alt_bn128_add";
              Parity.Pricing := Parity.VersionedPricing
                [(Some 0, Parity.constOperation 500);
                 (Some 20, Parity.constOperation 150)];
              Parity.ActivateAt := Some 10 |} /\
    Parity.builtins docB !! BytesToAddress [x07] =
      Some {| Parity.Name := "alt_bn128_mul";
              Parity.Pricing := Parity.VersionedPricing
                [(Some 0, Parity.constOperation 40000);
                 (Some 20, Parity.constOperation 6000)];
              Parity.ActivateAt := Some 10 |} /\
    Parity.builtins docB !! BytesToAddress [x08] =
      Some {| Parity.Name := "alt_bn128_pairing";
              Parity.Pricing := Parity.VersionedPricing
                [(Some 0, Parity.pairingOperation 100000 80000);
                 (Some 20, Parity.pairingOperation 45000 34000)];
              Parity.ActivateAt := Some 10 |}.
Proof.
  destruct (istanbul_definition_wins Sample.externals "testnet" []
              Sample.allForks Sample.allForksConfig 10 20
              eq_refl (ex_intro _ tt eq_refl) eq_refl eq_refl) as (HA & HB).
  eexists. eexists.
  split; [reflexivity|]. split; [reflexivity|].
  destruct (HA _ eq_refl) as (H6 & H7 & _).
  destruct (HB _ eq_refl) as (H6' & H7' & H8' & _).
  split; [exact H6|]. split; [exact H7|].
  split; [exact H6'|]. split; [exact H7'|]. exact H8'.
Defined.






(** ** Fork dependency *)





(** ** Format B: schedules and sentinel *)

(** C4, as the code has it: the Format B converter seeds the block-reward
    map with the base entry under "0x0" and creates the difficulty-bomb-delay
    map empty; then Byzantium, when set, and after it Constantinople, when
    set, each write one entry into each map under the encoding of their
    activation block, replacing whatever is already under that key. *)
Theorem parity_reward_and_delay_schedules
    (ext : Ext.Externals) (network : string) (bootnodes : list string)
    (g : Core.Genesis) (config : Core.ChainConfig)
    (doc : Parity.parityChainSpec) :
  Core.Config g = Some config ->
  Parity.newParityChainSpec ext network g bootnodes = Ok doc ->
  Parity.BlockReward (Parity.Engine doc) =
    (let rewards : gmap string string :=
       <["0x0" := ext.(Ext.EncodeBig) ext.(Ext.FrontierBlockReward)]> ∅ in
     let rewards :=
       match Core.ByzantiumBlock config with
       | Some num =>
           <[ext.(Ext.EncodeBig) num :=
               ext.(Ext.EncodeBig) ext.(Ext.ByzantiumBlockReward)]> rewards
       | None => rewards
       end in
     match Core.ConstantinopleBlock config with
     | Some num =>
         <[ext.(Ext.EncodeBig) num :=
             ext.(Ext.EncodeBig) ext.(Ext.ConstantinopleBlockReward)]> rewards
     | None => rewards
     end) /\
  Parity.DifficultyBombDelays (Parity.Engine doc) =
    (let delays : gmap string string := ∅ in
     let delays :=
       match Core.ByzantiumBlock config with
       | Some num =>
           <[ext.(Ext.EncodeBig) num := ext.(Ext.EncodeUint64) 3000000]> delays
       | None => delays
       end in
     match Core.ConstantinopleBlock config with
     | Some num =>
         <[ext.(Ext.EncodeBig) num := ext.(Ext.EncodeUint64) 2000000]> delays
     | None => delays
     end).
Proof.
  intros HC Hdoc.
  destruct (ParityFacts.newParityChainSpec_Ok_inv _ _ _ _ _ Hdoc)
    as (config' & h & e150 & e155 & e158 & c & spec & HC' & _ & _ & _ & _ &
        _ & _ & _ & _ & HE & _).
  assert (config' = config) as -> by congruence.
  rewrite HE. cbv zeta.
  by destruct (Core.ByzantiumBlock config), (Core.ConstantinopleBlock config).
Qed.

Lemma parity_reward_and_delay_schedules_witness :
  exists doc,
    Parity.newParityChainSpec Sample.externals "testnet" Sample.allForks []
      = Ok doc /\
    Parity.BlockReward (Parity.Engine doc) =
      <["0xf" := "0x1bc16d674ec80000"]>
        (<["0xa" := "0x29a2241af62c0000"]>
           (<["0x0" := "0x4563918244f40000"]> ∅)) /\
    Parity.DifficultyBombDelays (Parity.Engine doc) =
      <["0xf" := "0x1e8480"]> (<["0xa" := "0x2dc6c0"]> ∅).
Proof.
  eexists. split; [reflexivity|].
  apply (parity_reward_and_delay_schedules Sample.externals "testnet" []
           Sample.allForks Sample.allForksConfig); reflexivity.
Defined.

(** A model accepted by the Format B converter without Byzantium or
    Constantinople: its difficulty-bomb-delay map has no entry at all, hence
    no base entry for block 0, contrary to C4. *)
Lemma parity_reward_and_delay_schedules_counterexample :
  exists doc,
    Parity.newParityChainSpec Sample.externals "testnet" Sample.earlyForks []
      = Ok doc /\
    Parity.DifficultyBombDelays (Parity.Engine doc) = ∅ /\
    Parity.DifficultyBombDelays (Parity.Engine doc) !! "0x0" = None /\
    Parity.BlockReward (Parity.Engine doc) !! "0x0" = Some "0x4563918244f40000".
Proof.
  eexists. split; [reflexivity|]. split; [reflexivity|].
  split; reflexivity.
Qed.

(** C9, as the code has it: in every document returned by the Format B
    converter the EIP98 transition is [math.MaxInt64], 2^63 - 1, whatever the
    model; that sentinel is the largest signed 64-bit number, not the largest
    value of the unsigned 64-bit field. *)
Theorem parity_eip98_disabled
    (ext : Ext.Externals) (network : string) (bootnodes : list string)
    (g : Core.Genesis) (doc : Parity.parityChainSpec) :
  Parity.newParityChainSpec ext network g bootnodes = Ok doc ->
  Parity.EIP98Transition (Parity.Params doc) = MaxInt64 /\
  MaxInt64 = 9223372036854775807.
Proof.
  intros Hdoc.
  destruct (ParityFacts.newParityChainSpec_Ok_inv _ _ _ _ _ Hdoc)
    as (config & h & e150 & e155 & e158 & c & spec & _ & _ & _ & _ & _ &
        _ & _ & _ & _ & _ & HP & _).
  rewrite HP. split; reflexivity.
Qed.

Lemma parity_eip98_disabled_witness :
  exists doc,
    Parity.newParityChainSpec Sample.externals "testnet" Sample.allForks []
      = Ok doc /\
    Parity.EIP98Transition (Parity.Params doc) = MaxInt64 /\
    MaxInt64 = 9223372036854775807.
Proof.
  eexists. split; [reflexivity|].
  apply (parity_eip98_disabled Sample.externals "testnet" [] Sample.allForks).
  reflexivity.
Defined.

(** A returned document whose EIP98 transition is not the largest block
    number the field can hold: 2^64 - 1 is representable and larger. *)
Lemma parity_eip98_disabled_counterexample :
  exists doc,
    Parity.newParityChainSpec Sample.externals "testnet" Sample.allForks []
      = Ok doc /\
    Parity.EIP98Transition (Parity.Params doc) <> MaxUint64 /\
    Parity.EIP98Transition (Parity.Params doc) < MaxUint64.
Proof.
  eexists. split; [reflexivity|]. split; [discriminate|reflexivity].
Qed.
